(** * Dropbox MCP server: the tool surface of [dockerfile.py]

    A shallow embedding of the Python module: the text extractors, the
    download-and-dispatch helper [get_file_content], and the three tools
    [search_files], [read_file] and [search_file_content], followed by the
    properties of the substring search loop, of the truncation in
    [read_file], of the extension filter in [search_files] and of the
    failure handling.

    Python values are modelled as follows.  A [str] is a list of Unicode code
    points, a [bytes] object a list of bytes, an [int] is a [Z].  A call that
    may raise returns a [result]; the [try]/[except Exception] blocks of the
    source are [try_except].  The [while True] loop of the search is run
    with an explicit iteration budget and a theorem shows the budget the
    model hands out is never exhausted. *)

From Stdlib.Strings Require Import String Ascii Byte.
From Stdlib Require Import DecimalString.
From Stdlib Require Import ZArith NArith List Sorted Lia Bool.
Import ListNotations.

Set Implicit Arguments.
Open Scope Z_scope.

(** ** The Python runtime: strings, slices and the built-in string methods *)

Module Py.

(** A code point and a string of code points. *)
Definition char : Type := N.
Definition str : Type := list char.
Definition bytes : Type := list byte.

(** A string literal of the source, ASCII only. *)
Definition lit (s : string) : str := map N_of_ascii (list_ascii_of_string s).

(** The line feed ['\n']. *)
Definition LF : char := 10%N.

(** [len(s)] *)
Definition len {A : Type} (s : list A) : Z := Z.of_nat (length s).

(** How a slice bound is adjusted: a negative bound counts from the end, and
    the outcome is clipped to [0 .. n]. *)
Definition adjust_index (n i : Z) : Z :=
  if i <? 0 then Z.max 0 (i + n) else Z.min i n.

(** [s[a:b]] *)
Definition slice {A : Type} (s : list A) (a b : Z) : list A :=
  let n := len s in
  let lo := adjust_index n a in
  let hi := adjust_index n b in
  firstn (Z.to_nat (hi - lo)) (skipn (Z.to_nat lo) s).

(** [s == t] on strings. *)
Fixpoint str_eqb (s t : str) : bool :=
  match s, t with
  | [], [] => true
  | a :: s', b :: t' => N.eqb a b && str_eqb s' t'
  | _, _ => false
  end.

(** [s.startswith(sub)] *)
Fixpoint startswith (s sub : str) : bool :=
  match sub, s with
  | [], _ => true
  | _ :: _, [] => false
  | b :: sub', a :: s' => N.eqb a b && startswith s' sub'
  end.

(** [s.endswith(suffix)] *)
Definition endswith (s suffix : str) : bool :=
  startswith (rev s) (rev suffix).

(** The scan behind [find]: the lowest index at which [sub] starts in [s],
    counted from [i], or [-1]. *)
Fixpoint find_in (s sub : str) (i : Z) : Z :=
  if startswith s sub then i
  else match s with
       | [] => -1
       | _ :: s' => find_in s' sub (i + 1)
       end.

(** [s.find(sub, start)]: the lowest index in [s[start:]] where [sub] is
    found, [-1] when there is none.  A start beyond the end finds nothing,
    not even the empty string. *)
Definition find (s sub : str) (start : Z) : Z :=
  let n := len s in
  let st := if start <? 0 then Z.max 0 (start + n) else start in
  if n <? st then -1 else find_in (skipn (Z.to_nat st) s) sub st.

(** [s.count(c)] for a one-character [c]. *)
Fixpoint count (s : str) (c : char) : Z :=
  match s with
  | [] => 0
  | a :: s' => (if N.eqb a c then 1 else 0) + count s' c
  end.

(** [s.split(sep)] for a one-character separator: never an empty list. *)
Fixpoint split (s : str) (sep : char) : list str :=
  match s with
  | [] => [[]]
  | a :: s' =>
      if N.eqb a sep then [] :: split s' sep
      else match split s' sep with
           | [] => [[a]]
           | w :: ws => (a :: w) :: ws
           end
  end.

(** [l[-1]] on a list that is known not to be empty. *)
Definition last_item (l : list str) : str := last l [].

(** Code points for which [str.isspace] holds. *)
Definition isspace (c : char) : bool :=
  ((9 <=? c) && (c <=? 13) || (28 <=? c) && (c <=? 32)
   || (c =? 133) || (c =? 160) || (c =? 5760)
   || (8192 <=? c) && (c <=? 8202)
   || (c =? 8232) || (c =? 8233) || (c =? 8239) || (c =? 8287)
   || (c =? 12288))%N.

Fixpoint lstrip (s : str) : str :=
  match s with
  | a :: s' => if isspace a then lstrip s' else s
  | [] => []
  end.

(** [s.strip()] *)
Definition strip (s : str) : str := rev (lstrip (rev (lstrip s))).

(** [str(n)] for an [int]. *)
Definition str_of_int (n : Z) : str := lit (NilZero.string_of_int (Z.to_int n)).

(** The full lower-case mapping of one code point.  The table of the
    interpreter is not part of the repository: this model has the rows for
    Basic Latin, the Latin-1 Supplement and U+0130 (LATIN CAPITAL LETTER I
    WITH DOT ABOVE, which lowers to the two code points U+0069 U+0307) and
    leaves every other code point as it is.  The theorems on the search loop
    do not depend on this table: they hold for every lowering function. *)
Definition to_lower_full (c : char) : str :=
  (if (65 <=? c) && (c <=? 90) then [c + 32]
   else if (192 <=? c) && (c <=? 222) && negb (c =? 215) then [c + 32]
   else if c =? 304 then [105; 775]
   else [c])%N.

(** [s.lower()] *)
Definition lower (s : str) : str := flat_map to_lower_full s.

(** [b.decode('latin-1')]: one code point per byte.  [None] would stand for
    [UnicodeDecodeError], which this codec never raises. *)
Definition decode_latin1 (b : bytes) : option str := Some (map Byte.to_N b).

(** Is the byte a UTF-8 continuation byte within [lo .. hi]? *)
Definition in_range (lo hi b : N) : bool := ((lo <=? b) && (b <=? hi))%N.

(** [b.decode('utf-8')], strict: [None] stands for [UnicodeDecodeError]
    (truncated or overlong sequences, surrogates, code points beyond
    U+10FFFF, stray continuation bytes). *)
Fixpoint decode_utf8_N (b : list N) : option str :=
  match b with
  | [] => Some []
  | b0 :: r =>
      (if b0 <? 128 then option_map (cons b0) (decode_utf8_N r)
       else if in_range 194 223 b0 then
         match r with
         | b1 :: r1 =>
             if in_range 128 191 b1
             then option_map (cons ((b0 - 192) * 64 + (b1 - 128))) (decode_utf8_N r1)
             else None
         | _ => None
         end
       else if in_range 224 239 b0 then
         match r with
         | b1 :: b2 :: r2 =>
             if in_range (if b0 =? 224 then 160 else 128)
                         (if b0 =? 237 then 159 else 191) b1
                && in_range 128 191 b2
             then option_map
                    (cons ((b0 - 224) * 4096 + (b1 - 128) * 64 + (b2 - 128)))
                    (decode_utf8_N r2)
             else None
         | _ => None
         end
       else if in_range 240 244 b0 then
         match r with
         | b1 :: b2 :: b3 :: r3 =>
             if in_range (if b0 =? 240 then 144 else 128)
                         (if b0 =? 244 then 143 else 191) b1
                && in_range 128 191 b2 && in_range 128 191 b3
             then option_map
                    (cons ((b0 - 240) * 262144 + (b1 - 128) * 4096
                           + (b2 - 128) * 64 + (b3 - 128)))
                    (decode_utf8_N r3)
             else None
         | _ => None
         end
       else None)%N
  end.

Definition decode_utf8 (b : bytes) : option str :=
  decode_utf8_N (map Byte.to_N b).

End Py.

Import Py.

(** ** Exceptions *)

(** The exception classes the module tells apart in its [except] clauses.
    Everything here derives from [Exception]. *)
Inductive exn_class : Type :=
| AuthError
| ApiError
| ValueError
| OtherException.

(** An exception object; [exn_str e] is [str(e)], what an f-string prints. *)
Record exn : Type := Exn { exn_cls : exn_class; exn_str : str }.

(** The outcome of a call: a value, or a raised exception. *)
Inductive result (A : Type) : Type :=
| Ok (a : A)
| Raise (e : exn).
Arguments Ok {A} a.
Arguments Raise {A} e.

Definition bind {A B : Type} (r : result A) (k : A -> result B) : result B :=
  match r with
  | Ok a => k a
  | Raise e => Raise e
  end.

(** [try: body / except Exception as e: handler e] *)
Definition try_except {A : Type} (body : result A) (handler : exn -> result A)
  : result A :=
  match body with
  | Ok a => Ok a
  | Raise e => handler e
  end.

Declare Scope py_scope.
Delimit Scope py_scope with py.
Notation "x <- r ;; k" := (bind r (fun x => k))
  (at level 61, r at next level, right associativity) : py_scope.
Open Scope py_scope.

Definition is_ApiError (e : exn) : bool :=
  match exn_cls e with ApiError => true | _ => false end.

Definition is_AuthError (e : exn) : bool :=
  match exn_cls e with AuthError => true | _ => false end.

(** ** The collaborators: the Dropbox SDK and the optional decoders *)

(** [dropbox.files.FileMetadata], with [server_modified] already printed by
    [isoformat()]. *)
Record FileMetadata : Type := {
  name : str;
  path_lower : str;
  size : Z;
  server_modified_iso : str
}.

(** [match.metadata.metadata] of a search match: a file, or something that
    is not an instance of [FileMetadata] (a folder, a deleted entry). *)
Inductive Metadata : Type :=
| IsFile (md : FileMetadata)
| NotFile (entry_name entry_path : str).

(** The handle [dropbox.Dropbox]: the two calls the modelled tools make.
    [files_download p] is the [content] of the response;
    [files_search_v2 q n] is the [matches] of a search for [q] with
    [SearchOptions(max_results=n)]. *)
Record Client : Type := {
  files_download : str -> result bytes;
  files_search_v2 : str -> Z -> result (list Metadata)
}.

(** [PyPDF2]: [PdfReader(f).pages], each page with the outcome of its
    [extract_text()]. *)
Record PdfLib : Type := {
  PdfReader : bytes -> result (list (result str))
}.

(** [docx.Document]: [Document(f).paragraphs], each with the outcome of
    reading its [text]. *)
Record DocxLib : Type := {
  DocumentOf : bytes -> result (list (result str))
}.

(** ** Data model *)

(** [class SearchResult(BaseModel)] *)
Record SearchResult : Type := {
  sr_file_path : str;
  sr_file_name : str;
  sr_match_context : str;
  sr_file_size : Z;
  sr_modified : str
}.

(** One dictionary appended to [matches] in [search_file_content]. *)
Record ContentMatch : Type := {
  position : Z;
  context : str;
  line_number : Z
}.

(** One dictionary appended to [results] in [search_file_content]. *)
Record ContentSearchResult : Type := {
  file_path : str;
  file_name : str;
  matches : list ContentMatch;
  total_matches : Z
}.

(** ** The module *)

Section Server.

(** [str.lower] of the interpreter.  It is kept abstract so that the
    theorems cover every case table; [Py.lower] is the instance used for
    worked inputs. *)
Variable str_lower : str -> str.

(** The two optional imports: [None] after an [ImportError]. *)
Variable PyPDF2 : option PdfLib.
Variable Document : option DocxLib.

(** [os.getenv('DROPBOX_ACCESS_TOKEN')], and what [dropbox.Dropbox(token)]
    followed by [users_get_current_account()] gives for a token. *)
Variable DROPBOX_ACCESS_TOKEN : option str.
Variable connect : str -> result Client.

(** [initialize_dropbox_client]: the handle that ends up in the global on
    success.  (What the global holds after a failed connection test is not
    modelled: the exception leaves the tool before anything reads it.) *)
Definition initialize_dropbox_client : result Client :=
  match DROPBOX_ACCESS_TOKEN with
  | None | Some [] =>
      Raise (Exn ValueError
        (lit "DROPBOX_ACCESS_TOKEN environment variable is required. "
         ++ lit "Get your token from https://www.dropbox.com/developers/apps"))
  | Some access_token =>
      match connect access_token with
      | Ok c => Ok c
      | Raise e =>
          if is_AuthError e
          then Raise (Exn ValueError
                 (lit "Invalid Dropbox access token: " ++ exn_str e))
          else Raise (Exn ValueError
                 (lit "Failed to initialize Dropbox client: " ++ exn_str e))
      end
  end.

(** [if not dropbox_client: initialize_dropbox_client()], the first
    statement of every tool; [dropbox_client] is the global at call time. *)
Definition ensure_client (dropbox_client : option Client) : result Client :=
  match dropbox_client with
  | Some c => Ok c
  | None => initialize_dropbox_client
  end.

(** [for part in parts: text += part + "\n"], where reading a part may
    raise. *)
Fixpoint join_lines (parts : list (result str)) (text : str) : result str :=
  match parts with
  | [] => Ok text
  | part :: rest =>
      t <- part ;;
      join_lines rest (text ++ t ++ [LF])
  end.

(** [extract_text_from_pdf] *)
Definition extract_text_from_pdf (file_content : bytes) : result str :=
  match PyPDF2 with
  | None => Ok (lit "[PDF text extraction not available - install PyPDF2]")
  | Some lib =>
      try_except
        (pages <- PdfReader lib file_content ;;
         text <- join_lines pages [] ;;
         Ok (strip text))
        (fun e => Ok (lit "[Error extracting PDF text: " ++ exn_str e ++ lit "]"))
  end.

(** [extract_text_from_docx] *)
Definition extract_text_from_docx (file_content : bytes) : result str :=
  match Document with
  | None => Ok (lit "[DOCX text extraction not available - install python-docx]")
  | Some lib =>
      try_except
        (paragraphs <- DocumentOf lib file_content ;;
         text <- join_lines paragraphs [] ;;
         Ok (strip text))
        (fun e => Ok (lit "[Error extracting DOCX text: " ++ exn_str e ++ lit "]"))
  end.

(** [x in [...]] on strings. *)
Definition str_in (x : str) (l : list str) : bool := existsb (str_eqb x) l.

(** [get_file_content] *)
Definition get_file_content (dropbox_client : option Client) (path : str)
  : result str :=
  match dropbox_client with
  | None => Raise (Exn ValueError (lit "Dropbox client not initialized"))
  | Some c =>
      try_except
        (file_content <- files_download c path ;;
         let file_ext := last_item (split (str_lower path) 46%N) in
         if str_eqb file_ext (lit "pdf") then
           extract_text_from_pdf file_content
         else if str_in file_ext [lit "docx"; lit "doc"] then
           extract_text_from_docx file_content
         else if str_in file_ext
                   [lit "txt"; lit "md"; lit "py"; lit "js"; lit "html";
                    lit "css"; lit "json"; lit "csv"] then
           match decode_utf8 file_content with
           | Some s => Ok s
           | None =>
               match decode_latin1 file_content with
               | Some s => Ok s
               | None => Ok (lit "[Binary file - cannot display as text]")
               end
           end
         else Ok (lit "[Unsupported file type: " ++ file_ext ++ lit "]"))
        (fun e =>
           if is_ApiError e
           then Raise (Exn ValueError (lit "Dropbox API error: " ++ exn_str e))
           else Raise (Exn ValueError (lit "Error reading file: " ++ exn_str e)))
  end.

(** *** [search_files] *)

(** The [if]/[elif] chain that turns [file_types] into the allow-list
    [extensions]. *)
Definition parse_file_types (file_types : str) : list str :=
  if str_eqb (str_lower file_types) (lit "all") then
    [lit ".pdf"; lit ".docx"; lit ".doc"; lit ".txt"; lit ".md"; lit ".py";
     lit ".js"; lit ".html"; lit ".css"; lit ".json"; lit ".csv"]
  else if str_eqb (str_lower file_types) (lit "pdf") then [lit ".pdf"]
  else if str_eqb (str_lower file_types) (lit "docx") then
    [lit ".docx"; lit ".doc"]
  else if str_eqb (str_lower file_types) (lit "txt") then
    [lit ".txt"; lit ".md"]
  else map (fun ext => lit "." ++ strip ext) (split file_types 44%N).

(** [any(file_path.endswith(ext) for ext in extensions)] *)
Definition extension_matches (extensions : list str) (path : str) : bool :=
  existsb (endswith path) extensions.

(** The [SearchResult] built for a file. *)
Definition search_result_of (md : FileMetadata) : SearchResult :=
  {| sr_file_path := path_lower md;
     sr_file_name := name md;
     sr_match_context := lit "Filename match: " ++ name md;
     sr_file_size := size md;
     sr_modified := server_modified_iso md |}.

(** [for match in search_result.matches: ...], with [results] the list
    built so far. *)
Fixpoint collect_results (max_results : Z) (extensions : list str)
    (found : list Metadata) (results : list SearchResult)
  : list SearchResult :=
  match found with
  | [] => results
  | m :: rest =>
      if len results >=? max_results then results
      else match m with
           | IsFile md =>
               if extension_matches extensions (path_lower md)
               then collect_results max_results extensions rest
                      (results ++ [search_result_of md])
               else collect_results max_results extensions rest results
           | NotFile _ _ =>
               collect_results max_results extensions rest results
           end
  end.

(** [search_files] *)
Definition search_files (dropbox_client : option Client)
    (query file_types : str) (max_results : Z) : result (list SearchResult) :=
  c <- ensure_client dropbox_client ;;
  let extensions := parse_file_types file_types in
  try_except
    (found <- files_search_v2 c query (max_results * 2) ;;
     Ok (collect_results max_results extensions found []))
    (fun e => Raise (Exn ValueError (lit "Search failed: " ++ exn_str e))).

(** *** [read_file] *)

Definition truncation_note (total : Z) : str :=
  [LF; LF] ++ lit "[Content truncated - file has " ++ str_of_int total
  ++ lit " total characters]".

Definition read_file (dropbox_client : option Client)
    (path : str) (max_length : Z) : result str :=
  c <- ensure_client dropbox_client ;;
  try_except
    (content <- get_file_content (Some c) path ;;
     if (max_length >? 0) && (len content >? max_length)
     then Ok (slice content 0 max_length ++ truncation_note (len content))
     else Ok content)
    (fun e => Raise (Exn ValueError
       (lit "Failed to read file " ++ path ++ lit ": " ++ exn_str e))).

(** *** [search_file_content] *)

(** The dictionary recorded for a hit at [pos]. *)
Definition match_at (content query : str) (context_chars pos : Z)
  : ContentMatch :=
  let context_start := Z.max 0 (pos - context_chars) in
  let context_end := Z.min (len content) (pos + len query + context_chars) in
  {| position := pos;
     context := slice content context_start context_end;
     line_number := count (slice content 0 pos) LF + 1 |}.

(** The [while True] loop, entered with the cursor [start] and the list
    [found] built so far.  Each unit of [budget] pays for one evaluation of
    [find]; [None] means the budget ran out before the [break]. *)
Fixpoint search_loop (budget : nat) (content query : str) (context_chars : Z)
    (content_lower query_lower : str) (start : Z) (found : list ContentMatch)
  : option (list ContentMatch) :=
  match budget with
  | O => None
  | S budget' =>
      let pos := find content_lower query_lower start in
      if pos =? -1 then Some found
      else search_loop budget' content query context_chars
             content_lower query_lower (pos + 1)
             (found ++ [match_at content query context_chars pos])
  end.

(** The budget handed to the loop for a lowered text: one [find] per cursor
    position [0 .. len], and one more for the cursor past the end. *)
Definition loop_budget (content_lower : str) : nat :=
  S (S (List.length content_lower)).

(** The body of the [try] once the content is there: lower both strings,
    run the loop from cursor 0. *)
Definition search_content (content query : str) (context_chars : Z)
  : option (list ContentMatch) :=
  let query_lower := str_lower query in
  let content_lower := str_lower content in
  search_loop (loop_budget content_lower) content query context_chars
    content_lower query_lower 0 [].

(** What the tool has built while it walks [file_paths]: the list it will
    return and the warnings it has logged. *)
Record search_state : Type := {
  results : list ContentSearchResult;
  warnings : list str
}.

(** [logger.warning(f"Error searching in {file_path}: {e}")] *)
Definition warning_for (path : str) (e : exn) : str :=
  lit "Error searching in " ++ path ++ lit ": " ++ exn_str e.

(** The dictionary appended for a path with hits. *)
Definition entry_for (path : str) (ms : list ContentMatch)
  : ContentSearchResult :=
  {| file_path := path;
     file_name := last_item (split path 47%N);
     matches := ms;
     total_matches := len ms |}.

(** One turn of [for file_path in file_paths], the [try] and its [except]. *)
Definition search_path (dropbox_client : option Client)
    (query : str) (context_chars : Z) (st : search_state) (path : str)
  : option search_state :=
  match get_file_content dropbox_client path with
  | Raise e =>
      Some {| results := results st;
              warnings := warnings st ++ [warning_for path e] |}
  | Ok content =>
      match search_content content query context_chars with
      | None => None
      | Some [] => Some st
      | Some ms =>
          Some {| results := results st ++ [entry_for path ms];
                  warnings := warnings st |}
      end
  end.

(** The whole [for] loop. *)
Fixpoint search_paths (dropbox_client : option Client)
    (query : str) (context_chars : Z) (file_paths : list str)
    (st : search_state) : option search_state :=
  match file_paths with
  | [] => Some st
  | path :: rest =>
      match search_path dropbox_client query context_chars st path with
      | None => None
      | Some st' => search_paths dropbox_client query context_chars rest st'
      end
  end.

(** [search_file_content]: the returned list (or the exception of a failed
    initialisation) together with the warnings logged; [None] if a search
    loop has run out of budget. *)
Definition search_file_content (dropbox_client : option Client)
    (file_paths : list str) (query : str) (context_chars : Z)
  : option (result (list ContentSearchResult) * list str) :=
  match ensure_client dropbox_client with
  | Raise e => Some (Raise e, [])
  | Ok c =>
      option_map (fun st => (Ok (results st), warnings st))
        (search_paths (Some c) query context_chars file_paths
           {| results := []; warnings := [] |})
  end.

End Server.

(** ** What the search is specified against *)

(** [sub] occurs in [s] at offset [p]: [s] splits into [p] characters, then
    [sub], then a rest. *)
Definition occurs_at (s sub : str) (p : Z) : Prop :=
  exists pre post, s = pre ++ sub ++ post /\ len pre = p.

(** Every offset at which [sub] starts in [s], found by walking [s] one
    character at a time; offsets are counted from [i].  Overlapping
    occurrences are all listed. *)
Fixpoint occurrences_from (s sub : str) (i : Z) : list Z :=
  (if startswith s sub then [i] else [])
  ++ match s with
     | [] => []
     | _ :: s' => occurrences_from s' sub (i + 1)
     end.

Definition occurrences (s sub : str) : list Z := occurrences_from s sub 0.

(** [Q] occurs in [T] at offset [p] when case is ignored: the piece of [T]
    that starts at [p] and has the length of [Q] lies inside [T] and lowers
    to what [Q] lowers to. *)
Definition ci_occurs_at (str_lower : str -> str) (T Q : str) (p : Z) : Prop :=
  0 <= p /\ p + len Q <= len T
  /\ str_lower (slice T p (p + len Q)) = str_lower Q.

(** The offsets of [T], in ascending order, at which [Q] occurs when case
    is ignored; overlapping occurrences are all listed. *)
Definition ci_occurrences (str_lower : str -> str) (T Q : str) : list Z :=
  filter (fun p =>
            (p + len Q <=? len T)
            && str_eqb (str_lower (slice T p (p + len Q))) (str_lower Q))
    (map Z.of_nat (seq 0 (S (List.length T)))).

(** Lowering acts character by character, as [f] does, on every string
    written with the characters of [alphabet]. *)
Definition charwise_on (str_lower : str -> str) (f : char -> char)
    (alphabet : str) : Prop :=
  forall s, incl s alphabet -> str_lower s = map f s.

(** The character a code point lowers to in the table of [Py], for the code
    points that lower to one character. *)
Definition lower1 (c : char) : char := hd c (to_lower_full c).

(** The entry a path gets on its own: that of the search in its content,
    when the content is there and the search finds something. *)
Definition own_entries (str_lower : str -> str) (got : result str)
    (path query : str) (context_chars : Z) : list ContentSearchResult :=
  match got with
  | Ok content =>
      match search_content str_lower content query context_chars with
      | Some (m :: ms) => [entry_for path (m :: ms)]
      | _ => []
      end
  | Raise _ => []
  end.

(** The results a request for the extensions [exts] should keep, in the
    order of the remote reply: the files whose path ends in one of them. *)
Definition allowed_results (exts : list str) (found : list Metadata)
  : list SearchResult :=
  flat_map (fun m =>
              match m with
              | IsFile md =>
                  if extension_matches exts (path_lower md)
                  then [search_result_of md] else []
              | NotFile _ _ => []
              end) found.

(** A remote store that serves the same bytes for every path, and whose
    search finds the same entries for every query. *)
Definition constant_client (data : bytes) (found : list Metadata) : Client :=
  {| files_download := fun _ => Ok data;
     files_search_v2 := fun _ _ => Ok found |}.

(** A remote store in which the downloads of the paths [broken] fail with
    an [ApiError]. *)
Definition flaky_client (broken : list str) (data : bytes) : Client :=
  {| files_download := fun p =>
       if str_in p broken
       then Raise (Exn ApiError (lit "path/not_found"))
       else Ok data;
     files_search_v2 := fun _ _ => Ok [] |}.

(** What one path adds to the run of [search_file_content]: the entries
    appended to the returned list and the warnings logged. *)
Definition contribution (got : result str) (str_lower : str -> str)
    (path query : str) (context_chars : Z)
  : list ContentSearchResult * list str :=
  match got with
  | Raise e => ([], [warning_for path e])
  | Ok content =>
      match map (match_at content query context_chars)
              (occurrences (str_lower content) (str_lower query)) with
      | [] => ([], [])
      | ms => ([entry_for path ms], [])
      end
  end.

(** ** Worked inputs *)

(** A text of three lines, and the record of "b" found on its last line. *)
Definition three_lines : str := lit "ab" ++ [LF] ++ lit "cd" ++ [LF] ++ lit "xb".

Definition hit_on_third_line : ContentMatch :=
  {| position := 7; context := lit "b" ++ [LF] ++ lit "cd" ++ [LF] ++ lit "xb";
     line_number := 3 |}.

(** Scenario 1 of the specification: "at" in a one-line sentence, radius 3;
    the record of the hit inside "sat". *)
Definition cat_sentence : str := lit "The cat sat on the mat".

Definition records_of_at : list ContentMatch :=
  [ {| position := 5; context := lit "e cat sa"; line_number := 1 |};
    {| position := 9; context := lit "t sat on"; line_number := 1 |};
    {| position := 20; context := lit "e mat"; line_number := 1 |} ].

Definition hit_in_sat : ContentMatch :=
  {| position := 9; context := lit "t sat on"; line_number := 1 |}.

(** The same search with the query in upper case and radius 0. *)
Definition bare_hit_in_sat : ContentMatch :=
  {| position := 9; context := lit "at"; line_number := 1 |}.

Definition bare_records_of_at : list ContentMatch :=
  [ {| position := 5; context := lit "at"; line_number := 1 |};
    bare_hit_in_sat;
    {| position := 20; context := lit "at"; line_number := 1 |} ].

(** The one record of "nan" in "banana" with radius 0. *)
Definition nan_in_banana : ContentMatch :=
  {| position := 2; context := lit "nan"; line_number := 1 |}.

(** A text file holding U+0130 followed by "a", in UTF-8. *)
Definition dotted_I_then_a : bytes := [xc4; xb0; x61].

(** No way to connect: the requests below come with the client in place. *)
Definition no_connect : str -> result Client :=
  fun _ => Raise (Exn OtherException (lit "offline")).

(** Fifty times the letter x. *)
Definition fifty_x : bytes := repeat x78 50.

(** A reply of the remote search: two Word files, a PDF, a folder whose
    name ends in ".docx", and one more Word file. *)
Definition file_entry (file_name : string) (bytes_size : Z) : Metadata :=
  IsFile {| name := lit file_name;
            path_lower := lit "/" ++ lit file_name;
            size := bytes_size;
            server_modified_iso := lit "2024-01-01T00:00:00" |}.

Definition mixed_reply : list Metadata :=
  [ file_entry "plan.docx" 10; file_entry "plan.pdf" 20;
    NotFile (lit "old.docx") (lit "/old.docx");
    file_entry "memo.doc" 30; file_entry "late.docx" 40 ].

(** The text "banana" as a file. *)
Definition banana : bytes := [x62; x61; x6e; x61; x6e; x61].

(** ** The listing tools *)

(** An entry of a folder listing, or the metadata of one path: a file, a
    folder, or a deleted entry; the last two carry [name] and
    [path_lower]. *)
Inductive Entry : Type :=
| FileEntry (md : FileMetadata)
| FolderEntry (entry_name entry_path : str)
| DeletedEntry (entry_name entry_path : str).

(** [class FileInfo(BaseModel)] *)
Record FileInfo : Type := {
  fi_name : str;
  fi_path : str;
  fi_size : Z;
  fi_modified : str;
  is_folder : bool;
  content_preview : option str
}.

Section Listing.

Variable str_lower : str -> str.
Variable PyPDF2 : option PdfLib.
Variable Document : option DocxLib.
Variable DROPBOX_ACCESS_TOKEN : option str.
Variable connect : str -> result Client.

(** The two calls of the handle that the record [Client] does not carry,
    as functions of the handle: [files_list_folder(path, limit=n).entries]
    and [files_get_metadata(path)]. *)
Variable files_list_folder : Client -> str -> Z -> result (list Entry).
Variable files_get_metadata : Client -> str -> result Entry.

(** [if folder_path and not folder_path.startswith('/'): ...] *)
Definition normalize_folder_path (folder_path : str) : str :=
  match folder_path with
  | [] => []
  | _ :: _ =>
      if startswith folder_path (lit "/") then folder_path
      else lit "/" ++ folder_path
  end.

(** [s.endswith(('.txt', '.md', '.py', '.js'))] *)
Definition has_preview_suffix (s : str) : bool :=
  existsb (endswith s) [lit ".txt"; lit ".md"; lit ".py"; lit ".js"].

(** The preview of a file entry: [None] unless the name has a text
    suffix; the bare [except:] turns every failure into a placeholder. *)
Definition preview_of (c : Client) (md : FileMetadata) : option str :=
  if has_preview_suffix (str_lower (name md)) then
    Some match get_file_content str_lower PyPDF2 Document (Some c)
                 (path_lower md) with
         | Ok content =>
             if len content >? 200 then slice content 0 200 ++ lit "..."
             else content
         | Raise _ => lit "[Could not load preview]"
         end
  else None.

(** The [FileInfo] appended for a file and for a folder. *)
Definition file_info_of (md : FileMetadata) (preview : option str) : FileInfo :=
  {| fi_name := name md;
     fi_path := path_lower md;
     fi_size := size md;
     fi_modified := server_modified_iso md;
     is_folder := false;
     content_preview := preview |}.

Definition folder_info_of (entry_name entry_path : str) : FileInfo :=
  {| fi_name := entry_name;
     fi_path := entry_path;
     fi_size := 0;
     fi_modified := [];
     is_folder := true;
     content_preview := None |}.

(** [for entry in result.entries: ...], with [files] the list so far. *)
Fixpoint list_entries (c : Client) (entries : list Entry)
    (files : list FileInfo) : list FileInfo :=
  match entries with
  | [] => files
  | entry :: rest =>
      match entry with
      | FileEntry md =>
          list_entries c rest (files ++ [file_info_of md (preview_of c md)])
      | FolderEntry n p =>
          list_entries c rest (files ++ [folder_info_of n p])
      | DeletedEntry _ _ => list_entries c rest files
      end
  end.

(** [list_files] *)
Definition list_files (dropbox_client : option Client)
    (folder_path : str) (max_files : Z) : result (list FileInfo) :=
  c <- ensure_client DROPBOX_ACCESS_TOKEN connect dropbox_client ;;
  try_except
    (let folder_path := normalize_folder_path folder_path in
     entries <- files_list_folder c folder_path max_files ;;
     Ok (list_entries c entries []))
    (fun e => Raise (Exn ValueError (lit "Failed to list files: " ++ exn_str e))).

(** [get_file_info] *)
Definition get_file_info (dropbox_client : option Client) (path : str)
  : result FileInfo :=
  c <- ensure_client DROPBOX_ACCESS_TOKEN connect dropbox_client ;;
  try_except
    (metadata <- files_get_metadata c path ;;
     match metadata with
     | FileEntry md => Ok (file_info_of md None)
     | FolderEntry n p | DeletedEntry n p => Ok (folder_info_of n p)
     end)
    (fun e => Raise (Exn ValueError
       (lit "Failed to get file info for " ++ path ++ lit ": " ++ exn_str e))).

End Listing.

(** ** What the other tools are specified against *)

(** A string that neither begins nor ends with white space. *)
Definition trimmed (s : str) : Prop :=
  (forall a r, s = a :: r -> isspace a = false)
  /\ (forall r z, s = r ++ [z] -> isspace z = false).


(** The warning logged for a path, if its content cannot be fetched. *)
Definition warning_of (got : result str) (path : str) : list str :=
  match got with
  | Ok _ => []
  | Raise e => [warning_for path e]
  end.

(** What a listing shows for one entry, given the previews. *)
Definition listed (preview : FileMetadata -> option str) (e : Entry)
  : list FileInfo :=
  match e with
  | FileEntry md => [file_info_of md (preview md)]
  | FolderEntry n p => [folder_info_of n p]
  | DeletedEntry _ _ => []
  end.

(** The path of an entry that a listing shows. *)
Definition shown_path (e : Entry) : list str :=
  match e with
  | FileEntry md => [path_lower md]
  | FolderEntry _ p => [p]
  | DeletedEntry _ _ => []
  end.

(** A [FileInfo] with its preview taken away. *)
Definition without_preview (f : FileInfo) : FileInfo :=
  {| fi_name := fi_name f; fi_path := fi_path f; fi_size := fi_size f;
     fi_modified := fi_modified f; is_folder := is_folder f;
     content_preview := None |}.

(** ** More worked inputs *)

(** A reader that finds two pages and fails on the third. *)
Definition torn_pdf : PdfLib :=
  {| PdfReader := fun _ =>
       Ok (map Ok [lit "one"; lit "two"]
           ++ Raise (Exn OtherException (lit "bad xref")) :: [Ok (lit "four")]) |}.

Definition sound_docx : DocxLib :=
  {| DocumentOf := fun _ => Ok (map Ok [lit "one"; lit "two"]) |}.

(** A remote folder: a text file with an upper-case name, a folder, a
    deleted entry and a PDF. *)
Definition notes_file : FileMetadata :=
  {| name := lit "Notes.TXT"; path_lower := lit "/notes.txt"; size := 6;
     server_modified_iso := lit "2024-01-01T00:00:00" |}.

Definition report_file : FileMetadata :=
  {| name := lit "report.pdf"; path_lower := lit "/report.pdf"; size := 900;
     server_modified_iso := lit "2024-02-02T00:00:00" |}.

Definition sample_folder : list Entry :=
  [ FileEntry notes_file; FolderEntry (lit "docs") (lit "/docs");
    DeletedEntry (lit "old") (lit "/old"); FileEntry report_file ].

Definition sample_list_folder : Client -> str -> Z -> result (list Entry) :=
  fun _ _ _ => Ok sample_folder.

Definition sample_get_metadata : Client -> str -> result Entry :=
  fun _ _ => Ok (FolderEntry (lit "docs") (lit "/docs")).

(** ** Lemmas on the runtime *)

Lemma len_app {A : Type} (s t : list A) : len (s ++ t) = len s + len t.
Proof. unfold len. rewrite length_app. lia. Qed.

Lemma len_nonneg {A : Type} (s : list A) : 0 <= len s.
Proof. unfold len. lia. Qed.

Lemma startswith_iff (s sub : str) :
  startswith s sub = true <-> exists rest, s = sub ++ rest.
Proof.
  revert s. induction sub as [|b sub IH]; intros s.
  - split; [intros _; now exists s | intros _; now destruct s].
  - destruct s as [|a s]; simpl.
    + split; [discriminate | intros [rest H]; discriminate].
    + rewrite andb_true_iff, N.eqb_eq, IH. split.
      * intros [-> [rest ->]]. now exists rest.
      * intros [rest H]. injection H as -> ->. split; [reflexivity | now exists rest].
Qed.

Lemma str_eqb_eq (s t : str) : str_eqb s t = true <-> s = t.
Proof.
  revert t. induction s as [|a s IH]; intros [|b t]; simpl;
    try (split; [discriminate | discriminate]); try tauto.
  rewrite andb_true_iff, N.eqb_eq, IH. split.
  - now intros [-> ->].
  - intros H. injection H as -> ->. tauto.
Qed.

Lemma endswith_iff (s suffix : str) :
  endswith s suffix = true <-> exists stem, s = stem ++ suffix.
Proof.
  unfold endswith. rewrite startswith_iff. split.
  - intros [rest H]. exists (rev rest).
    rewrite <- (rev_involutive s), H, rev_app_distr.
    now rewrite rev_involutive.
  - intros [stem ->]. exists (rev stem). apply rev_app_distr.
Qed.

(** A slice with bounds inside the string is [firstn] of [skipn]. *)
Lemma slice_inside {A : Type} (s : list A) (a b : Z) :
  0 <= a -> 0 <= b ->
  slice s a b
  = firstn (Z.to_nat (Z.min b (len s)) - Z.to_nat a) (skipn (Z.to_nat a) s).
Proof.
  intros Ha Hb. unfold slice, adjust_index.
  destruct (Z.ltb_spec a 0) as [?|_]; [lia|].
  destruct (Z.ltb_spec b 0) as [?|_]; [lia|].
  destruct (Z.le_gt_cases a (len s)) as [Hle|Hgt].
  - rewrite (Z.min_l a) by lia. f_equal. lia.
  - rewrite (Z.min_r a) by lia.
    rewrite !skipn_all2 by (unfold len in *; lia).
    now rewrite !firstn_nil.
Qed.

Lemma slice_prefix {A : Type} (s : list A) (b : Z) :
  0 <= b -> slice s 0 b = firstn (Z.to_nat b) s.
Proof.
  intros Hb. rewrite slice_inside by lia. simpl. rewrite Nat.sub_0_r.
  destruct (Z.le_gt_cases b (len s)).
  - now rewrite Z.min_l by lia.
  - rewrite Z.min_r by lia. unfold len in *.
    rewrite Nat2Z.id, !firstn_all2; trivial; lia.
Qed.

(** A slice never reads outside the string it is taken from. *)
Lemma slice_substring {A : Type} (s : list A) (a b : Z) :
  exists pre post, s = pre ++ slice s a b ++ post.
Proof.
  unfold slice.
  set (lo := Z.to_nat (adjust_index (len s) a)).
  set (n := Z.to_nat (adjust_index (len s) b - adjust_index (len s) a)).
  exists (firstn lo s), (skipn n (skipn lo s)).
  now rewrite (firstn_skipn n), (firstn_skipn lo).
Qed.

(** The slice that spans the middle piece of a string is that piece. *)
Lemma slice_middle {A : Type} (pre mid post : list A) :
  slice (pre ++ mid ++ post) (len pre) (len pre + len mid) = mid.
Proof.
  pose proof (len_nonneg pre). pose proof (len_nonneg mid).
  pose proof (len_nonneg post).
  rewrite slice_inside by lia. rewrite !len_app.
  replace (Z.min (len pre + len mid) (len pre + (len mid + len post)))
    with (len pre + len mid) by lia.
  unfold len. rewrite Nat2Z.id.
  replace (Z.to_nat (Z.of_nat (List.length pre) + Z.of_nat (List.length mid))
           - List.length pre)%nat
    with (List.length mid + 0)%nat by lia.
  rewrite skipn_app, skipn_all, Nat.sub_diag. simpl.
  rewrite firstn_app_2. simpl. apply app_nil_r.
Qed.

(** Clipping the upper bound to the length changes nothing. *)
Lemma slice_clip_hi {A : Type} (s : list A) (a b : Z) :
  0 <= b -> slice s a (Z.min (len s) b) = slice s a b.
Proof.
  intros Hb. unfold slice, adjust_index.
  pose proof (len_nonneg s).
  destruct (Z.ltb_spec (Z.min (len s) b) 0) as [?|_]; [lia|].
  destruct (Z.ltb_spec b 0) as [?|_]; [lia|].
  replace (Z.min (Z.min (len s) b) (len s)) with (Z.min b (len s)) by lia.
  reflexivity.
Qed.

Lemma len_slice_inside {A : Type} (s : list A) (a b : Z) :
  0 <= a -> 0 <= b ->
  len (slice s a b) = Z.max 0 (Z.min b (len s) - Z.min a (len s)).
Proof.
  intros Ha Hb. rewrite slice_inside by assumption.
  unfold len. rewrite length_firstn, length_skipn. lia.
Qed.

(** ** The offsets the walk lists *)

Lemma occurrences_from_nil (sub : str) (i : Z) :
  occurrences_from [] sub i = if startswith [] sub then [i] else [].
Proof. simpl. now rewrite app_nil_r. Qed.

Lemma occurrences_from_cons (a : char) (s sub : str) (i : Z) :
  occurrences_from (a :: s) sub i
  = (if startswith (a :: s) sub then [i] else [])
    ++ occurrences_from s sub (i + 1).
Proof. reflexivity. Qed.

Lemma find_in_nil (sub : str) (i : Z) :
  find_in [] sub i = if startswith [] sub then i else -1.
Proof. reflexivity. Qed.

Lemma find_in_cons (a : char) (s sub : str) (i : Z) :
  find_in (a :: s) sub i
  = if startswith (a :: s) sub then i else find_in s sub (i + 1).
Proof. reflexivity. Qed.

Lemma occurrences_from_In (s sub : str) (i p : Z) :
  In p (occurrences_from s sub i)
  <-> exists pre post, s = pre ++ sub ++ post /\ p = i + len pre.
Proof.
  revert i. induction s as [|a s IH]; intros i.
  - rewrite occurrences_from_nil. split.
    + destruct (startswith [] sub) eqn:E; [|intros []].
      intros [<-|[]]. apply startswith_iff in E. destruct E as [rest E].
      exists [], rest. split; [exact E | unfold len; simpl; lia].
    + intros (pre & post & E & ->). destruct pre; [|discriminate].
      assert (H : startswith [] sub = true)
        by (apply startswith_iff; now exists post).
      rewrite H. left. unfold len; simpl; lia.
  - rewrite occurrences_from_cons, in_app_iff, IH. split.
    + intros [H|H].
      * destruct (startswith (a :: s) sub) eqn:E; [|contradiction].
        destruct H as [<-|[]]. apply startswith_iff in E. destruct E as [rest E].
        exists [], rest. split; [exact E | unfold len; simpl; lia].
      * destruct H as (pre & post & -> & ->). exists (a :: pre), post.
        split; [reflexivity | unfold len; simpl length; lia].
    + intros (pre & post & E & ->). destruct pre as [|x pre].
      * left. assert (H : startswith (a :: s) sub = true)
          by (apply startswith_iff; now exists post).
        rewrite H. left. unfold len; simpl; lia.
      * right. injection E as -> ->. exists pre, post.
        split; [reflexivity | unfold len; simpl length; lia].
Qed.

Lemma occurrences_In (s sub : str) (p : Z) :
  In p (occurrences s sub) <-> occurs_at s sub p.
Proof.
  unfold occurrences, occurs_at. rewrite occurrences_from_In.
  split; intros (pre & post & E & H); exists pre, post; split; trivial; lia.
Qed.

Lemma occurrences_from_ge (s sub : str) (i : Z) :
  Forall (fun p => i <= p) (occurrences_from s sub i).
Proof.
  apply Forall_forall. intros p H. apply occurrences_from_In in H.
  destruct H as (pre & _ & _ & ->). pose proof (len_nonneg pre). lia.
Qed.

Lemma occurrences_from_sorted (s sub : str) (i : Z) :
  StronglySorted Z.lt (occurrences_from s sub i).
Proof.
  revert i. induction s as [|a s IH]; intros i.
  - rewrite occurrences_from_nil.
    destruct (startswith [] sub); repeat constructor.
  - rewrite occurrences_from_cons.
    destruct (startswith (a :: s) sub); simpl app; [|apply IH].
    constructor; [apply IH|].
    eapply Forall_impl; [|apply occurrences_from_ge].
    intros q Hq. cbv beta in Hq. lia.
Qed.

(** What one [find] sees in the rest [s] of the text that starts at offset
    [i]: nothing, or the first offset the walk lists, [k] characters on. *)
Lemma find_in_first (s sub : str) (i : Z) :
  (find_in s sub i = -1 /\ occurrences_from s sub i = [])
  \/ exists k, (k <= List.length s)%nat
       /\ find_in s sub i = i + Z.of_nat k
       /\ occurrences_from s sub i
          = (i + Z.of_nat k)
            :: match skipn k s with
               | [] => []
               | _ :: s' => occurrences_from s' sub (i + Z.of_nat k + 1)
               end.
Proof.
  revert i. induction s as [|a s IH]; intros i.
  - rewrite find_in_nil, occurrences_from_nil.
    destruct (startswith [] sub); [right|left; auto].
    exists 0%nat. simpl. rewrite Z.add_0_r. auto.
  - rewrite find_in_cons, occurrences_from_cons.
    destruct (startswith (a :: s) sub).
    + right. exists 0%nat. simpl. rewrite Z.add_0_r.
      split; [lia|split; reflexivity].
    + simpl app. destruct (IH (i + 1)) as [[H1 H2]|(k & Hk & H1 & H2)].
      * left. auto.
      * right. exists (S k). rewrite H1, H2. simpl skipn. simpl List.length.
        replace (i + 1 + Z.of_nat k) with (i + Z.of_nat (S k)) by lia.
        split; [lia|split; reflexivity].
Qed.

(** [find] from a cursor inside the text scans the rest of the text. *)
Lemma find_at_cursor (pre s sub : str) :
  find (pre ++ s) sub (len pre) = find_in s sub (len pre).
Proof.
  unfold find. pose proof (len_nonneg pre) as Hp.
  destruct (Z.ltb_spec (len pre) 0) as [?|_]; [lia|].
  rewrite len_app. pose proof (len_nonneg s).
  destruct (Z.ltb_spec (len pre + len s) (len pre)) as [?|_]; [lia|].
  unfold len at 1. rewrite Nat2Z.id, skipn_app, skipn_all, Nat.sub_diag.
  reflexivity.
Qed.

(** [find] from a cursor past the end finds nothing. *)
Lemma find_past_end (s sub : str) (start : Z) :
  len s < start -> find s sub start = -1.
Proof.
  intros H. unfold find. pose proof (len_nonneg s).
  destruct (Z.ltb_spec start 0) as [?|_]; [lia|].
  destruct (Z.ltb_spec (len s) start) as [_|?]; [reflexivity|lia].
Qed.

Section Loop.

Variables (content query : str) (context_chars : Z).
Variables (content_lower query_lower : str).

Let record := match_at content query context_chars.
Let loop := fun budget =>
  search_loop budget content query context_chars content_lower query_lower.

(** With the cursor at the start of the rest [s] of the lowered text and a
    budget of two more than its length, the loop leaves through its [break]
    having recorded one match for each offset the walk lists. *)
Lemma search_loop_occurrences (budget : nat) :
  forall (pre s : str) (found : list ContentMatch),
    content_lower = pre ++ s ->
    (List.length s + 2 <= budget)%nat ->
    loop budget (len pre) found
    = Some (found ++ map record (occurrences_from s query_lower (len pre))).
Proof.
  unfold loop, record.
  induction budget as [|budget IH]; intros pre s found Hcl Hb; [lia|].
  assert (Hfind : find content_lower query_lower (len pre)
                  = find_in s query_lower (len pre))
    by (rewrite Hcl; apply find_at_cursor).
  simpl search_loop. rewrite Hfind.
  pose proof (len_nonneg pre) as Hpre.
  destruct (find_in_first s query_lower (len pre))
    as [[H1 H2]|(k & Hk & H1 & H2)].
  - rewrite H1, H2. simpl. now rewrite app_nil_r.
  - rewrite H1, H2.
    destruct (Z.eqb_spec (len pre + Z.of_nat k) (-1)) as [?|_]; [lia|].
    simpl map. destruct (skipn k s) as [|x s'] eqn:Hs.
    + (* the hit is at the very end: the next [find] starts past it *)
      destruct budget as [|budget]; [lia|]. simpl search_loop.
      rewrite find_past_end; [simpl; reflexivity|].
      assert (List.length (skipn k s) = 0%nat) by now rewrite Hs.
      rewrite length_skipn in *. rewrite Hcl, len_app. unfold len. lia.
    + assert (Hsplit : s = firstn k s ++ x :: s')
        by (rewrite <- Hs; symmetry; apply firstn_skipn).
      assert (Hlen : List.length s = (k + S (List.length s'))%nat).
      { rewrite Hsplit at 1. rewrite length_app, length_firstn. simpl. lia. }
      replace (len pre + Z.of_nat k + 1)
        with (len (pre ++ firstn k s ++ [x])).
      * rewrite IH with (s := s').
        -- now rewrite <- app_assoc.
        -- rewrite Hcl, Hsplit at 1. now rewrite <- !app_assoc.
        -- lia.
      * rewrite !len_app. unfold len. rewrite length_firstn. simpl. lia.
Qed.

End Loop.

(** [search_content] returns, and what it returns is one record for every
    offset at which the lowered query occurs in the lowered text, in
    ascending order. *)
Lemma search_content_occurrences (str_lower : str -> str)
    (content query : str) (context_chars : Z) :
  search_content str_lower content query context_chars
  = Some (map (match_at content query context_chars)
            (occurrences (str_lower content) (str_lower query))).
Proof.
  unfold search_content, loop_budget, occurrences.
  change 0 with (len (@nil char)).
  rewrite search_loop_occurrences with (pre := []) (s := str_lower content);
    [reflexivity | reflexivity | lia].
Qed.

(** A larger budget changes nothing. *)
Lemma search_loop_budget (str_lower : str -> str)
    (content query : str) (context_chars : Z) (budget : nat) :
  (loop_budget (str_lower content) <= budget)%nat ->
  search_loop budget content query context_chars
    (str_lower content) (str_lower query) 0 []
  = search_content str_lower content query context_chars.
Proof.
  intros H. rewrite search_content_occurrences. unfold occurrences.
  change 0 with (len (@nil char)).
  rewrite search_loop_occurrences with (pre := []) (s := str_lower content);
    [reflexivity | reflexivity | unfold loop_budget in H; lia].
Qed.

Lemma map_position_match_at (content query : str) (c : Z) (ps : list Z) :
  map position (map (match_at content query c) ps) = ps.
Proof. rewrite map_map. simpl. apply map_id. Qed.

Lemma count_nonneg (s : str) (c : char) : 0 <= count s c.
Proof.
  induction s as [|a s IH]; simpl; [lia|]. destruct (N.eqb a c); lia.
Qed.

(** Every record of a search is the record of an offset at which the
    lowered query occurs in the lowered text. *)
Lemma search_content_In (str_lower : str -> str)
    (content query : str) (context_chars : Z)
    (ms : list ContentMatch) (m : ContentMatch) :
  search_content str_lower content query context_chars = Some ms ->
  In m ms ->
  m = match_at content query context_chars (position m)
  /\ In (position m) (occurrences (str_lower content) (str_lower query))
  /\ 0 <= position m.
Proof.
  rewrite search_content_occurrences. intros [= <-] Hin.
  apply in_map_iff in Hin. destruct Hin as (p & <- & Hp). simpl.
  split; [reflexivity|]. split; [exact Hp|].
  pose proof (occurrences_from_ge (str_lower content) (str_lower query) 0) as G.
  rewrite Forall_forall in G. now apply G.
Qed.

(** When lowering works character by character, an occurrence in the
    lowered text is an occurrence in the text itself of a piece that lowers
    to the lowered query. *)
Lemma occurs_at_map (f : char -> char) (T Q : str) (p : Z) :
  occurs_at (map f T) (map f Q) p
  <-> exists pre mid post,
        T = pre ++ mid ++ post /\ len pre = p /\ map f mid = map f Q.
Proof.
  unfold occurs_at. split.
  - intros (pre' & post' & E & Hp).
    apply map_eq_app in E. destruct E as (pre & rest & -> & <- & E).
    apply map_eq_app in E. destruct E as (mid & post & -> & E & _).
    exists pre, mid, post. split; [reflexivity|]. split; [|exact E].
    unfold len in *. now rewrite length_map in Hp.
  - intros (pre & mid & post & -> & Hp & E).
    exists (map f pre), (map f post). rewrite !map_app, E.
    split; [reflexivity|]. unfold len in *. now rewrite length_map.
Qed.

(** The table of [Py] lowers every code point but U+0130 to one
    character. *)
Lemma Py_lower_charwise (alphabet : str) :
  ~ In 304%N alphabet -> charwise_on Py.lower lower1 alphabet.
Proof.
  intros Hno s. induction s as [|a s IH]; intros Hs; [reflexivity|].
  change (Py.lower (a :: s)) with (to_lower_full a ++ Py.lower s).
  rewrite IH by (intros x Hx; apply Hs; now right).
  assert (Ha : a <> 304%N).
  { intros ->. apply Hno, Hs. now left. }
  assert (Hone : to_lower_full a = [lower1 a]).
  { unfold lower1, to_lower_full.
    destruct ((65 <=? a) && (a <=? 90))%N; [reflexivity|].
    destruct ((192 <=? a) && (a <=? 222) && negb (a =? 215))%N;
      [reflexivity|].
    destruct (N.eqb_spec a 304) as [E|_]; [contradiction|reflexivity]. }
  rewrite Hone. reflexivity.
Qed.

(** A slice whose bounds lie inside the string splits the string. *)
Lemma slice_split {A : Type} (s : list A) (p n : Z) :
  0 <= p -> 0 <= n -> p + n <= len s ->
  exists pre post,
    s = pre ++ slice s p (p + n) ++ post /\ len pre = p.
Proof.
  intros Hp Hn Hb. rewrite slice_inside by lia.
  exists (firstn (Z.to_nat p) s),
         (skipn (Z.to_nat (Z.min (p + n) (len s)) - Z.to_nat p)
            (skipn (Z.to_nat p) s)).
  rewrite !firstn_skipn. split; [reflexivity|].
  unfold len in *. rewrite length_firstn. lia.
Qed.

Lemma incl_piece {A : Type} (pre mid post extra : list A) :
  incl mid ((pre ++ mid ++ post) ++ extra).
Proof.
  intros x Hx. apply in_or_app. left. apply in_or_app. right.
  apply in_or_app. now left.
Qed.

(** Where lowering acts character by character, the lowered query occurs
    in the lowered text exactly at the offsets where the query occurs in
    the text when case is ignored. *)
Lemma ci_occurs_iff (str_lower : str -> str) (f : char -> char)
    (T Q : str) (p : Z) :
  charwise_on str_lower f (T ++ Q) ->
  occurs_at (str_lower T) (str_lower Q) p <-> ci_occurs_at str_lower T Q p.
Proof.
  intros Hf.
  assert (HT : str_lower T = map f T) by (apply Hf, incl_appl, incl_refl).
  assert (HQ : str_lower Q = map f Q) by (apply Hf, incl_appr, incl_refl).
  rewrite HT, HQ, occurs_at_map. unfold ci_occurs_at. split.
  - intros (pre & mid & post & E & Hp & Hmid).
    assert (Hlen : len mid = len Q).
    { unfold len. f_equal.
      rewrite <- (length_map f mid), Hmid. apply length_map. }
    pose proof (len_nonneg pre). pose proof (len_nonneg post).
    split; [lia|]. split; [rewrite E, !len_app; lia|].
    rewrite E at 1. rewrite <- Hp, <- Hlen, slice_middle.
    rewrite HQ, Hf; [exact Hmid|]. rewrite E. apply incl_piece.
  - intros (Hp & Hb & Hsl). pose proof (len_nonneg Q) as HlQ.
    destruct (slice_split T Hp HlQ Hb) as (pre & post & E & Hpre).
    exists pre, (slice T p (p + len Q)), post.
    split; [exact E|]. split; [exact Hpre|].
    rewrite <- HQ, <- Hsl. symmetry. apply Hf.
    rewrite E at 2. apply incl_piece.
Qed.

Lemma ci_occurrences_In (str_lower : str -> str) (T Q : str) (p : Z) :
  In p (ci_occurrences str_lower T Q) <-> ci_occurs_at str_lower T Q p.
Proof.
  unfold ci_occurrences, ci_occurs_at.
  rewrite filter_In, in_map_iff, andb_true_iff, Z.leb_le, str_eqb_eq.
  pose proof (len_nonneg Q). unfold len in *. split.
  - intros [(n & <- & Hn) [Hb E]]. split; [lia|]. split; assumption.
  - intros (Hp & Hb & E). split; [|split; assumption].
    exists (Z.to_nat p). split; [lia|]. apply in_seq. lia.
Qed.

Lemma offsets_sorted (a n : nat) :
  StronglySorted Z.lt (map Z.of_nat (seq a n)).
Proof.
  revert a. induction n as [|n IH]; intros a; simpl; constructor.
  - apply IH.
  - apply Forall_forall. intros x Hx. apply in_map_iff in Hx.
    destruct Hx as (k & <- & Hk). apply in_seq in Hk. lia.
Qed.

Lemma filter_sorted (test : Z -> bool) (l : list Z) :
  StronglySorted Z.lt l -> StronglySorted Z.lt (filter test l).
Proof.
  induction 1 as [|a l Hs IH Ha]; simpl; [constructor|].
  destruct (test a); [|exact IH]. constructor; [exact IH|].
  apply Forall_forall. intros x Hx. apply filter_In in Hx.
  rewrite Forall_forall in Ha. now apply Ha.
Qed.

(** Two strictly ascending lists with the same elements are the same. *)
Lemma sorted_ext (l1 l2 : list Z) :
  StronglySorted Z.lt l1 -> StronglySorted Z.lt l2 ->
  (forall x, In x l1 <-> In x l2) -> l1 = l2.
Proof.
  revert l2. induction l1 as [|a l1 IH]; intros l2 S1 S2 H.
  - destruct l2 as [|b l2]; [reflexivity|].
    destruct (proj2 (H b) (or_introl eq_refl)).
  - destruct l2 as [|b l2]; [destruct (proj1 (H a) (or_introl eq_refl))|].
    apply StronglySorted_inv in S1. destruct S1 as [S1 Fa].
    apply StronglySorted_inv in S2. destruct S2 as [S2 Fb].
    rewrite Forall_forall in Fa, Fb.
    assert (E : a = b).
    { destruct (proj1 (H a) (or_introl eq_refl)) as [E|Ha]; [now symmetry|].
      destruct (proj2 (H b) (or_introl eq_refl)) as [E|Hb]; [exact E|].
      specialize (Fa b Hb). specialize (Fb a Ha). lia. }
    subst b. f_equal. apply IH; [exact S1|exact S2|].
    intros x. split; intros Hx.
    + destruct (proj1 (H x) (or_intror Hx)) as [E|Hx']; [|exact Hx'].
      specialize (Fa x Hx). lia.
    + destruct (proj2 (H x) (or_intror Hx)) as [E|Hx']; [|exact Hx'].
      specialize (Fb x Hx). lia.
Qed.

(** ** The substring search *)

(** The search in terms of the lowered strings.  For every text and every
    query, and whatever the lowering function, the search loop stops and
    its records are, in ascending order and without repetition, exactly the
    offsets at which the lowered query occurs in the lowered text,
    overlapping occurrences included: as many records as occurrences.
    Searching "aa" in "aaa" records the offsets 0 and 1. *)
Theorem search_records_each_occurrence_once :
  (forall (str_lower : str -> str) (T Q : str) (context_chars : Z),
     exists ms,
       search_content str_lower T Q context_chars = Some ms
       /\ map position ms = occurrences (str_lower T) (str_lower Q)
       /\ StronglySorted Z.lt (map position ms)
       /\ (forall p, In p (map position ms)
                     <-> occurs_at (str_lower T) (str_lower Q) p)
       /\ List.length ms
          = List.length (occurrences (str_lower T) (str_lower Q)))
  /\ (forall context_chars,
        option_map (map position)
          (search_content Py.lower (lit "aaa") (lit "aa") context_chars)
        = Some [0; 1]).
Proof.
  split.
  - intros str_lower T Q c. eexists. split.
    + apply search_content_occurrences.
    + rewrite map_position_match_at. split; [reflexivity|].
      split; [apply occurrences_from_sorted|].
      split; [intros p; apply occurrences_In|]. apply length_map.
  - intros c. rewrite search_content_occurrences. unfold option_map.
    rewrite map_position_match_at. reflexivity.
Qed.

(** C1, as the code has it.  For a text and a query on whose characters
    lowering acts character by character (every ASCII text and query, for
    one), the search loop stops and records exactly one match for each
    occurrence of the query in the text when case is ignored, overlapping
    occurrences included: the recorded positions are, in ascending order
    and without repetition, the offsets [p] of the text with
    [T[p : p + len(Q)].lower() == Q.lower()], and there are as many
    records as such offsets.  The cursor moves on by one after a hit:
    searching "aa" in "aaa" records the offsets 0 and 1. *)
Theorem search_finds_case_insensitive_occurrences
    (str_lower : str -> str) (f : char -> char)
    (T Q : str) (context_chars : Z) :
  charwise_on str_lower f (T ++ Q) ->
  (exists ms,
     search_content str_lower T Q context_chars = Some ms
     /\ map position ms = ci_occurrences str_lower T Q
     /\ StronglySorted Z.lt (map position ms)
     /\ (forall p, In p (map position ms) <-> ci_occurs_at str_lower T Q p)
     /\ List.length ms = List.length (ci_occurrences str_lower T Q))
  /\ (forall c,
        option_map (map position)
          (search_content Py.lower (lit "aaa") (lit "aa") c)
        = Some [0; 1]).
Proof.
  intros Hf. split.
  - eexists. split; [apply search_content_occurrences|].
    rewrite map_position_match_at.
    assert (Hiff : forall p,
              In p (occurrences (str_lower T) (str_lower Q))
              <-> ci_occurs_at str_lower T Q p).
    { intros p. rewrite occurrences_In. now apply ci_occurs_iff with (f := f). }
    assert (E : occurrences (str_lower T) (str_lower Q)
                = ci_occurrences str_lower T Q).
    { apply sorted_ext.
      - apply occurrences_from_sorted.
      - apply filter_sorted, offsets_sorted.
      - intros p. now rewrite Hiff, ci_occurrences_In. }
    split; [exact E|]. split; [apply occurrences_from_sorted|].
    split; [exact Hiff|]. now rewrite length_map, E.
  - intros c. rewrite search_content_occurrences. unfold option_map.
    rewrite map_position_match_at. reflexivity.
Qed.

Lemma search_finds_case_insensitive_occurrences_witness :
  (exists ms,
     search_content Py.lower (lit "aaa") (lit "AA") 100 = Some ms
     /\ map position ms = [0; 1]
     /\ StronglySorted Z.lt (map position ms)
     /\ (forall p, In p (map position ms)
                   <-> ci_occurs_at Py.lower (lit "aaa") (lit "AA") p)
     /\ List.length ms = 2%nat)
  /\ (forall c,
        option_map (map position)
          (search_content Py.lower (lit "aaa") (lit "aa") c)
        = Some [0; 1]).
Proof.
  apply (@search_finds_case_insensitive_occurrences Py.lower lower1
           (lit "aaa") (lit "AA") 100).
  apply Py_lower_charwise. vm_compute. intuition discriminate.
Defined.

(** The claim C1 as stated fails where lowering changes the length of the
    text: the combining dot U+0307 does not occur in the one-character
    text U+0130, with or without regard to case, and the loop records a
    match for it, at offset 1 of the lowered text. *)
Lemma combining_dot_is_found_in_dotted_I :
  exists ms,
    search_content Py.lower [304%N] [775%N] 100 = Some ms
    /\ map position ms = [1]
    /\ ci_occurrences Py.lower [304%N] [775%N] = []
    /\ (forall p, ~ ci_occurs_at Py.lower [304%N] [775%N] p)
    /\ (forall p, ~ occurs_at [304%N] [775%N] p).
Proof.
  eexists. split; [vm_compute; reflexivity|].
  split; [reflexivity|]. split; [reflexivity|]. split.
  - intros p Hp. apply ci_occurrences_In in Hp. exact Hp.
  - intros p (pre & post & E & _).
    destruct pre as [|a [|b pre]]; discriminate.
Qed.

(** C2.  Every record of a search at offset [P] in the text [T] carries the
    line number one plus the number of line feeds in [T[0:P]], the first
    [P] characters of [T]; it is at least 1. *)
Theorem line_number_counts_newlines (str_lower : str -> str)
    (T Q : str) (context_chars : Z)
    (ms : list ContentMatch) (m : ContentMatch) :
  search_content str_lower T Q context_chars = Some ms ->
  In m ms ->
  line_number m = 1 + count (slice T 0 (position m)) LF
  /\ line_number m = 1 + count (firstn (Z.to_nat (position m)) T) LF
  /\ 1 <= line_number m.
Proof.
  intros Hs Hin.
  destruct (search_content_In _ _ _ _ _ Hs Hin) as (Hm & _ & Hpos).
  assert (H1 : line_number m = 1 + count (slice T 0 (position m)) LF)
    by (rewrite Hm at 1; unfold match_at; cbn [line_number]; lia).
  split; [exact H1|]. rewrite H1, slice_prefix by exact Hpos.
  split; [reflexivity|].
  pose proof (count_nonneg (firstn (Z.to_nat (position m)) T) LF). lia.
Qed.

Lemma line_number_counts_newlines_witness :
  line_number hit_on_third_line
  = 1 + count (slice three_lines 0 (position hit_on_third_line)) LF
  /\ line_number hit_on_third_line
     = 1 + count (firstn (Z.to_nat (position hit_on_third_line)) three_lines) LF
  /\ 1 <= line_number hit_on_third_line.
Proof.
  apply (@line_number_counts_newlines Py.lower three_lines (lit "B") 6
           [ {| position := 1; context := three_lines; line_number := 1 |};
             hit_on_third_line ]).
  - vm_compute. reflexivity.
  - simpl. auto.
Defined.

(** C3, as the code has it.  For a window radius [context_chars >= 0], the
    context of a record at the recorded offset [P] is the slice of the
    original text from [max(0, P - context_chars)] to
    [min(len(T), P + len(Q) + context_chars)], that is the characters of
    [T] with these indices; it is a piece of [T] (nothing is read outside
    the text), and with radius 0 it is [T[P : P + len(Q)]].  For a text
    and a query on whose characters lowering acts character by character
    (every ASCII text and query, for one) that slice is the matched piece
    of the text: it has the length of the query and lowers to what the
    query lowers to. *)
Theorem context_is_clipped_window (str_lower : str -> str)
    (T Q : str) (context_chars : Z)
    (ms : list ContentMatch) (m : ContentMatch) :
  0 <= context_chars ->
  search_content str_lower T Q context_chars = Some ms ->
  In m ms ->
  let P := position m in
  let lo := Z.max 0 (P - context_chars) in
  let hi := Z.min (len T) (P + len Q + context_chars) in
  context m = slice T lo hi
  /\ context m = firstn (Z.to_nat hi - Z.to_nat lo) (skipn (Z.to_nat lo) T)
  /\ 0 <= lo /\ hi <= len T
  /\ (exists pre post, T = pre ++ context m ++ post)
  /\ (context_chars = 0 -> context m = slice T P (P + len Q))
  /\ (forall f : char -> char,
        charwise_on str_lower f (T ++ Q) ->
        context_chars = 0 ->
        len (context m) = len Q
        /\ str_lower (context m) = str_lower Q).
Proof.
  intros Hc Hs Hin P lo hi.
  destruct (search_content_In _ _ _ _ _ Hs Hin) as (Hm & Hocc & Hpos).
  pose proof (len_nonneg T) as HT. pose proof (len_nonneg Q) as HQ.
  assert (H1 : context m = slice T lo hi)
    by (rewrite Hm at 1; reflexivity).
  split; [exact H1|]. split.
  - rewrite H1, slice_inside by (subst lo hi P; lia).
    replace (Z.min hi (len T)) with hi by (subst hi; lia). reflexivity.
  - assert (H0 : context_chars = 0 -> context m = slice T P (P + len Q)).
    { intros ->. rewrite H1. subst lo hi.
      rewrite Z.sub_0_r, Z.add_0_r, Z.max_r by exact Hpos.
      apply slice_clip_hi. fold P. lia. }
    split; [subst lo; lia|]. split; [subst hi; lia|]. split; [|split].
    + rewrite H1. apply slice_substring.
    + exact H0.
    + intros f Hf Hzero. rewrite (H0 Hzero).
      apply occurrences_In in Hocc.
      apply (@ci_occurs_iff str_lower f T Q P Hf) in Hocc.
      destruct Hocc as (Hp & Hb & Hsl). split; [|exact Hsl].
      rewrite len_slice_inside by lia. lia.
Qed.

Lemma context_is_clipped_window_witness :
  context bare_hit_in_sat = slice cat_sentence 9 11
  /\ (exists pre post, cat_sentence = pre ++ context bare_hit_in_sat ++ post)
  /\ len (context bare_hit_in_sat) = len (lit "AT")
  /\ Py.lower (context bare_hit_in_sat) = Py.lower (lit "AT").
Proof.
  destruct (@context_is_clipped_window Py.lower cat_sentence (lit "AT") 0
              bare_records_of_at bare_hit_in_sat)
    as (_ & _ & _ & _ & H3 & H4 & H5).
  - lia.
  - vm_compute. reflexivity.
  - simpl. auto.
  - split; [exact (H4 eq_refl)|]. split; [exact H3|].
    apply (H5 lower1); [|reflexivity].
    apply Py_lower_charwise. vm_compute. intuition discriminate.
Defined.

(** The claim C3 as stated fails where lowering changes the length of the
    text: in U+0130 "a" the query "a" is recorded at offset 2 of the
    lowered text, and with radius 0 the context cut from the text there is
    empty, not the matched "a". *)
Lemma context_misses_match_after_dotted_I :
  exists ms m,
    search_content Py.lower [304%N; 97%N] (lit "a") 0 = Some ms
    /\ In m ms
    /\ context m = []
    /\ Py.lower (context m) <> Py.lower (lit "a")
    /\ slice [304%N; 97%N] 1 (1 + len (lit "a")) = lit "a".
Proof.
  do 2 eexists. split; [vm_compute; reflexivity|].
  split; [left; reflexivity|]. split; [reflexivity|].
  split; [discriminate|reflexivity].
Qed.

(** With the empty string for the lowered query, the walk lists every
    offset from the first to the one past the last character. *)
Lemma occurrences_from_empty (s : str) (n : nat) :
  occurrences_from s [] (Z.of_nat n)
  = map Z.of_nat (seq n (S (List.length s))).
Proof.
  revert n. induction s as [|a s IH]; intros n.
  - reflexivity.
  - rewrite occurrences_from_cons. simpl startswith. cbv iota.
    replace (Z.of_nat n + 1) with (Z.of_nat (S n)) by lia.
    rewrite IH. reflexivity.
Qed.

(** C10, as the code has it.  For a text whose lowered form has the length
    of the text itself (every ASCII text is one), the loop run with the
    empty query stops and records exactly [len(T) + 1] matches, one at every
    offset from 0 through [len(T)]. *)
Theorem empty_query_matches_every_offset (str_lower : str -> str)
    (T : str) (context_chars : Z) :
  str_lower [] = [] ->
  List.length (str_lower T) = List.length T ->
  exists ms,
    search_content str_lower T [] context_chars = Some ms
    /\ map position ms = map Z.of_nat (seq 0 (S (List.length T)))
    /\ len ms = len T + 1.
Proof.
  intros Hq Hlen. eexists. split; [apply search_content_occurrences|].
  rewrite map_position_match_at, Hq. unfold occurrences.
  change 0 with (Z.of_nat 0). rewrite occurrences_from_empty, Hlen.
  split; [reflexivity|].
  unfold len. rewrite !length_map, length_seq. lia.
Qed.

Lemma empty_query_matches_every_offset_witness :
  exists ms,
    search_content Py.lower (lit "abc") [] 1 = Some ms
    /\ map position ms = [0; 1; 2; 3]
    /\ len ms = 4.
Proof.
  exact (@empty_query_matches_every_offset Py.lower (lit "abc") 1
           eq_refl eq_refl).
Defined.

(** The claim C10 as stated fails on U+0130, whose lowered form has two
    code points: the loop records three offsets for a text of length one. *)
Lemma empty_query_counts_lowered_offsets :
  exists ms,
    search_content Py.lower [304%N] [] 100 = Some ms
    /\ map position ms = [0; 1; 2]
    /\ len ms <> len [304%N] + 1.
Proof.
  eexists. split; [vm_compute; reflexivity|].
  split; [reflexivity|]. vm_compute. discriminate.
Qed.

(** When lowering works character by character, every recorded position is
    an offset of the original text, and the piece of the text found there
    lowers to the lowered query. *)
Lemma position_in_original_when_charwise (f : char -> char)
    (T Q : str) (context_chars : Z)
    (ms : list ContentMatch) (m : ContentMatch) :
  search_content (map f) T Q context_chars = Some ms ->
  In m ms ->
  exists pre mid post,
    T = pre ++ mid ++ post /\ len pre = position m /\ map f mid = map f Q.
Proof.
  intros Hs Hin.
  destruct (search_content_In _ _ _ _ _ Hs Hin) as (_ & Hocc & _).
  apply occurrences_In in Hocc. now apply occurs_at_map.
Qed.

(** C4 at a failing input.  The file decodes to the two code points
    U+0130 "a", so "a" is at offset 1 of the extracted text; the tool
    reports position 2, an offset of the lowered text U+0069 U+0307 "a",
    and the context it cuts from the original text there is empty. *)
Theorem position_is_offset_of_lowered_text :
  decode_utf8 dotted_I_then_a = Some [304%N; 97%N]
  /\ search_file_content Py.lower None None None
       (fun _ => Raise (Exn OtherException []))
       (Some (constant_client dotted_I_then_a []))
       [lit "/notes.txt"] (lit "a") 0
     = Some (Ok [ {| file_path := lit "/notes.txt";
                     file_name := lit "notes.txt";
                     matches := [ {| position := 2; context := [];
                                     line_number := 1 |} ];
                     total_matches := 1 |} ],
             [])
  /\ find [304%N; 97%N] (lit "a") 0 = 1
  /\ slice [304%N; 97%N] 2 (2 + len (lit "a")) = [].
Proof. vm_compute. repeat split. Qed.

(** ** The extractors *)

(** C9.  Whatever the bytes, and whether or not the decoder library is
    installed, the PDF and the DOCX extractor return a string and raise
    nothing: without the library the result is the "not available"
    placeholder, and when opening the document or reading one of its parts
    raises, it is the "Error extracting" placeholder with the text of the
    exception; otherwise it is the stripped text. *)
Theorem extractors_never_raise :
  forall (PyPDF2 : option PdfLib) (Document : option DocxLib)
         (file_content : bytes),
    (exists s, extract_text_from_pdf PyPDF2 file_content = Ok s)
    /\ (exists s, extract_text_from_docx Document file_content = Ok s)
    /\ extract_text_from_pdf None file_content
       = Ok (lit "[PDF text extraction not available - install PyPDF2]")
    /\ extract_text_from_docx None file_content
       = Ok (lit "[DOCX text extraction not available - install python-docx]")
    /\ (forall lib,
          extract_text_from_pdf (Some lib) file_content
          = Ok match (pages <- PdfReader lib file_content ;;
                      join_lines pages []) with
               | Ok text => strip text
               | Raise e =>
                   lit "[Error extracting PDF text: " ++ exn_str e ++ lit "]"
               end)
    /\ (forall lib,
          extract_text_from_docx (Some lib) file_content
          = Ok match (paragraphs <- DocumentOf lib file_content ;;
                      join_lines paragraphs []) with
               | Ok text => strip text
               | Raise e =>
                   lit "[Error extracting DOCX text: " ++ exn_str e ++ lit "]"
               end).
Proof.
  intros PyPDF2 Document file_content.
  assert (Hpdf : forall lib,
            extract_text_from_pdf (Some lib) file_content
            = Ok match (pages <- PdfReader lib file_content ;;
                        join_lines pages []) with
                 | Ok text => strip text
                 | Raise e =>
                     lit "[Error extracting PDF text: " ++ exn_str e ++ lit "]"
                 end).
  { intros lib. unfold extract_text_from_pdf, try_except, bind.
    destruct (PdfReader lib file_content) as [pages|e]; [|reflexivity].
    destruct (join_lines pages []); reflexivity. }
  assert (Hdocx : forall lib,
            extract_text_from_docx (Some lib) file_content
            = Ok match (paragraphs <- DocumentOf lib file_content ;;
                        join_lines paragraphs []) with
                 | Ok text => strip text
                 | Raise e =>
                     lit "[Error extracting DOCX text: " ++ exn_str e ++ lit "]"
                 end).
  { intros lib. unfold extract_text_from_docx, try_except, bind.
    destruct (DocumentOf lib file_content) as [paragraphs|e]; [|reflexivity].
    destruct (join_lines paragraphs []); reflexivity. }
  split; [|split].
  - destruct PyPDF2 as [lib|]; [rewrite Hpdf|]; eexists; reflexivity.
  - destruct Document as [lib|]; [rewrite Hdocx|]; eexists; reflexivity.
  - split; [reflexivity|]. split; [reflexivity|]. split; assumption.
Qed.

(** ** The tools *)

Lemma collect_results_firstn (max_results : Z) (exts : list str)
    (found : list Metadata) :
  forall results,
    collect_results max_results exts found results
    = results
      ++ firstn (Z.to_nat (max_results - len results))
           (allowed_results exts found).
Proof.
  induction found as [|m rest IH]; intros results; simpl.
  - now rewrite firstn_nil, app_nil_r.
  - destruct (Z.geb_spec (len results) max_results) as [Hge|Hlt].
    + replace (Z.to_nat (max_results - len results)) with 0%nat by lia.
      now rewrite app_nil_r.
    + destruct m as [md|]; [|apply IH].
      destruct (extension_matches exts (path_lower md)); [|apply IH].
      rewrite IH, len_app, <- app_assoc. simpl app.
      replace (Z.to_nat (max_results - len results))
        with (S (Z.to_nat (max_results - (len results + len [search_result_of md]))))
        by (unfold len in *; simpl; lia).
      reflexivity.
Qed.

Lemma In_firstn {A : Type} (n : nat) (l : list A) (x : A) :
  In x (firstn n l) -> In x l.
Proof.
  intros H. rewrite <- (firstn_skipn n l). apply in_or_app. now left.
Qed.

Lemma allowed_results_Forall (exts : list str) (found : list Metadata) :
  Forall (fun r => extension_matches exts (sr_file_path r) = true)
    (allowed_results exts found).
Proof.
  unfold allowed_results. apply Forall_flat_map. apply Forall_forall.
  intros [md|] _; [|constructor].
  destruct (extension_matches exts (path_lower md)) eqn:E; repeat constructor.
  exact E.
Qed.

Section Tools.

Variable str_lower : str -> str.
Variable PyPDF2 : option PdfLib.
Variable Document : option DocxLib.
Variable DROPBOX_ACCESS_TOKEN : option str.
Variable connect : str -> result Client.

Local Abbreviation ensure := (ensure_client DROPBOX_ACCESS_TOKEN connect).
Local Abbreviation content_of := (get_file_content str_lower PyPDF2 Document).
Local Abbreviation search_in :=
  (search_file_content str_lower PyPDF2 Document DROPBOX_ACCESS_TOKEN connect).
Local Abbreviation read :=
  (read_file str_lower PyPDF2 Document DROPBOX_ACCESS_TOKEN connect).
Local Abbreviation search_names :=
  (search_files str_lower DROPBOX_ACCESS_TOKEN connect).
Local Abbreviation adds := (fun g q c path =>
  contribution (content_of g path) str_lower path q c).

(** One turn of the [for] loop never runs out of budget, and extends the
    state by the contribution of its path. *)
Lemma search_path_contribution (g : option Client) (q : str) (c : Z)
    (st : search_state) (path : str) :
  search_path str_lower PyPDF2 Document g q c st path
  = Some {| results := results st ++ fst (adds g q c path);
            warnings := warnings st ++ snd (adds g q c path) |}.
Proof.
  unfold search_path, contribution.
  destruct (content_of g path) as [content|e]; simpl.
  - rewrite search_content_occurrences.
    destruct (map (match_at content q c)
                (occurrences (str_lower content) (str_lower q))); simpl.
    + rewrite !app_nil_r. now destruct st.
    + now rewrite app_nil_r.
  - now rewrite app_nil_r.
Qed.

Lemma search_paths_contributions (g : option Client) (q : str) (c : Z)
    (paths : list str) :
  forall st,
    search_paths str_lower PyPDF2 Document g q c paths st
    = Some {| results := results st ++ flat_map (fun p => fst (adds g q c p)) paths;
              warnings := warnings st ++ flat_map (fun p => snd (adds g q c p)) paths |}.
Proof.
  induction paths as [|p rest IH]; intros st; simpl.
  - rewrite !app_nil_r. now destruct st.
  - rewrite search_path_contribution, IH. simpl. now rewrite <- !app_assoc.
Qed.

(** The tool always returns once the client is there: the list is the
    entries, and the log the warnings, of the paths in order. *)
Lemma search_file_content_contributions (g : option Client) (cl : Client)
    (paths : list str) (q : str) (c : Z) :
  ensure g = Ok cl ->
  search_in g paths q c
  = Some (Ok (flat_map (fun p => fst (adds (Some cl) q c p)) paths),
          flat_map (fun p => snd (adds (Some cl) q c p)) paths).
Proof.
  intros Hg. unfold search_file_content. rewrite Hg.
  rewrite search_paths_contributions. reflexivity.
Qed.


(** The contribution of a path is its own entry and its own warning. *)
Lemma contribution_own (g : option Client) (q : str) (c : Z) (p : str) :
  adds g q c p
  = (own_entries str_lower (content_of g p) p q c,
     warning_of (content_of g p) p).
Proof.
  unfold contribution, own_entries, warning_of.
  destruct (content_of g p) as [content|e]; [|reflexivity].
  rewrite search_content_occurrences.
  destruct (map _ _); reflexivity.
Qed.

Lemma own_entries_path (got : result str) (p q : str) (c : Z)
    (r : ContentSearchResult) :
  In r (own_entries str_lower got p q c) ->
  file_path r = p /\ exists content, got = Ok content.
Proof.
  unfold own_entries. destruct got as [content|e]; [|intros []].
  destruct (search_content str_lower content q c) as [[|m ms]|].
  - intros [].
  - intros [<-|[]]. split; [reflexivity|now exists content].
  - intros [].
Qed.

(** C8.  A path whose content cannot be fetched is skipped with one
    warning and does not stop the batch.  The tool returns; the list it
    returns holds, in the order of the request, for every other path whose
    content is fetched and holds the query, the entry of the search in that
    content, and nothing else (no entry for the failing path); the log
    holds the warnings of the other paths with the warning of the failing
    path in its place.  So the run is the run on the paths before followed
    by the run on the paths after. *)
Theorem failing_path_is_skipped (g : option Client) (cl : Client)
    (q : str) (c : Z) (before after : list str) (path : str) (e : exn) :
  ensure g = Ok cl ->
  content_of (Some cl) path = Raise e ->
  exists rs log,
    search_in g (before ++ path :: after) q c = Some (Ok rs, log)
    /\ rs = flat_map
              (fun p => own_entries str_lower (content_of (Some cl) p) p q c)
              (before ++ after)
    /\ log = flat_map (fun p => warning_of (content_of (Some cl) p) p) before
             ++ warning_for path e
             :: flat_map (fun p => warning_of (content_of (Some cl) p) p) after
    /\ (forall p content m ms,
          In p (before ++ after) ->
          content_of (Some cl) p = Ok content ->
          search_content str_lower content q c = Some (m :: ms) ->
          In {| file_path := p;
                file_name := last_item (split p 47%N);
                matches := m :: ms;
                total_matches := len (m :: ms) |} rs)
    /\ ~ In path (map file_path rs)
    /\ (exists rs1 log1 rs2 log2,
          search_in g before q c = Some (Ok rs1, log1)
          /\ search_in g after q c = Some (Ok rs2, log2)
          /\ rs = rs1 ++ rs2
          /\ log = log1 ++ warning_for path e :: log2).
Proof.
  intros Hg He.
  assert (Hrun : forall paths,
            search_in g paths q c
            = Some (Ok (flat_map
                          (fun p => own_entries str_lower
                                      (content_of (Some cl) p) p q c) paths),
                    flat_map (fun p => warning_of (content_of (Some cl) p) p)
                      paths)).
  { intros paths. rewrite (search_file_content_contributions _ _ _ _ Hg).
    do 2 f_equal; [f_equal|]; apply flat_map_ext; intros p;
      now rewrite contribution_own. }
  do 2 eexists. split; [apply Hrun|].
  assert (Hskip : own_entries str_lower (content_of (Some cl) path) path q c
                  = [])
    by (unfold own_entries; now rewrite He).
  split; [|split; [|split; [|split]]].
  - rewrite !flat_map_app. cbn [flat_map]. now rewrite Hskip.
  - rewrite !flat_map_app. cbn [flat_map]. unfold warning_of at 2.
    now rewrite He.
  - intros p content m ms Hp Hc Hs.
    apply in_flat_map. exists p. split.
    + apply in_app_or in Hp. apply in_or_app.
      destruct Hp as [Hp|Hp]; [now left|right; now right].
    + unfold own_entries. rewrite Hc, Hs. now left.
  - intros Hin. apply in_map_iff in Hin. destruct Hin as (r & Hr & Hin).
    apply in_flat_map in Hin. destruct Hin as (p & _ & Hin).
    apply own_entries_path in Hin. destruct Hin as [Hp [content Hc]].
    rewrite Hp in Hr. subst p. rewrite He in Hc. discriminate.
  - do 4 eexists. split; [apply Hrun|]. split; [apply Hrun|].
    rewrite !flat_map_app. cbn [flat_map]. rewrite Hskip.
    split; [reflexivity|]. unfold warning_of at 2. now rewrite He.
Qed.

(** C6.  Once the content of the file is extracted, [read_file] returns it
    unchanged unless [max_length > 0] and the content is longer: then it
    returns the first [max_length] characters followed by the note that
    gives the total number of characters in decimal.  With [max_length = 10]
    and 50 characters, these are 10 characters and the note with "50". *)
Theorem read_file_truncates (g : option Client) (cl : Client)
    (path : str) (max_length : Z) (content : str) :
  ensure g = Ok cl ->
  content_of (Some cl) path = Ok content ->
  read g path max_length
  = Ok (if (0 <? max_length) && (max_length <? len content)
        then firstn (Z.to_nat max_length) content
             ++ [LF; LF] ++ lit "[Content truncated - file has "
             ++ str_of_int (len content) ++ lit " total characters]"
        else content)
  /\ (0 < max_length < len content ->
      List.length (firstn (Z.to_nat max_length) content) = Z.to_nat max_length)
  /\ (max_length = 10 -> len content = 50 ->
      read g path max_length
      = Ok (firstn 10 content ++ [LF; LF]
            ++ lit "[Content truncated - file has 50 total characters]")).
Proof.
  intros Hg Hc.
  assert (H : read g path max_length
              = Ok (if (0 <? max_length) && (max_length <? len content)
                    then firstn (Z.to_nat max_length) content
                         ++ [LF; LF] ++ lit "[Content truncated - file has "
                         ++ str_of_int (len content)
                         ++ lit " total characters]"
                    else content)).
  { unfold read_file. rewrite Hg. cbn [bind]. rewrite Hc. cbn [bind].
    rewrite Z.gtb_ltb, (Z.gtb_ltb (len content)).
    destruct (Z.ltb_spec 0 max_length) as [Hpos|_];
      cbn [andb try_except]; [|reflexivity].
    destruct (Z.ltb_spec max_length (len content));
      cbn [try_except]; [|reflexivity].
    rewrite slice_prefix by lia. reflexivity. }
  split; [exact H|]. split.
  - intros [H0 H1]. rewrite length_firstn. unfold len in H1. lia.
  - intros -> H50. rewrite H, H50. reflexivity.
Qed.

(** C7.  With the client there, [search_files] asks the remote search for
    [2 * max_results] candidates and nothing else; a failure of that call
    is raised as "Search failed"; otherwise the result is the first
    [max_results] of the files whose path ends in an allowed extension, so
    it never has more than [max_results] entries (none when
    [max_results <= 0]); and when [file_types] lowers to "docx", every
    path returned ends in ".docx" or ".doc". *)
Theorem search_files_filters_and_truncates (g : option Client) (cl : Client)
    (query file_types : str) (max_results : Z) :
  ensure g = Ok cl ->
  search_names g query file_types max_results
  = match files_search_v2 cl query (2 * max_results) with
    | Ok found =>
        Ok (firstn (Z.to_nat max_results)
              (allowed_results (parse_file_types str_lower file_types) found))
    | Raise e => Raise (Exn ValueError (lit "Search failed: " ++ exn_str e))
    end
  /\ (forall rs,
        search_names g query file_types max_results = Ok rs ->
        len rs <= Z.max 0 max_results
        /\ (str_lower file_types = lit "docx" ->
            Forall (fun r =>
                      exists stem,
                        sr_file_path r = stem ++ lit ".docx"
                        \/ sr_file_path r = stem ++ lit ".doc") rs)).
Proof.
  intros Hg.
  assert (H : search_names g query file_types max_results
              = match files_search_v2 cl query (2 * max_results) with
                | Ok found =>
                    Ok (firstn (Z.to_nat max_results)
                          (allowed_results
                             (parse_file_types str_lower file_types) found))
                | Raise e =>
                    Raise (Exn ValueError (lit "Search failed: " ++ exn_str e))
                end).
  { unfold search_files. rewrite Hg. cbn [bind].
    rewrite (Z.mul_comm max_results 2).
    destruct (files_search_v2 cl query (2 * max_results)) as [found|e];
      cbn [bind try_except]; [|reflexivity].
    rewrite collect_results_firstn. cbn [app]. unfold len. cbn [List.length].
    now rewrite Z.sub_0_r. }
  split; [exact H|]. intros rs Hrs. rewrite H in Hrs.
  destruct (files_search_v2 cl query (2 * max_results)) as [found|e];
    [|discriminate].
  injection Hrs as <-. split.
  - unfold len. rewrite length_firstn. lia.
  - intros Hdocx.
    assert (Hexts : parse_file_types str_lower file_types
                    = [lit ".docx"; lit ".doc"]).
    { unfold parse_file_types. rewrite Hdocx. reflexivity. }
    rewrite Hexts.
    apply Forall_forall. intros r Hr. apply In_firstn in Hr.
    pose proof (allowed_results_Forall [lit ".docx"; lit ".doc"] found) as F.
    rewrite Forall_forall in F. specialize (F r Hr).
    unfold extension_matches in F. simpl existsb in F.
    rewrite orb_false_r in F. apply orb_true_iff in F.
    destruct F as [F|F]; apply endswith_iff in F; destruct F as [stem F];
      exists stem; auto.
Qed.

End Tools.

(** ** Worked requests *)

Lemma read_file_truncates_witness :
  read_file Py.lower None None None no_connect
    (Some (constant_client fifty_x [])) (lit "/notes.txt") 10
  = Ok (lit "xxxxxxxxxx" ++ [LF; LF]
        ++ lit "[Content truncated - file has 50 total characters]").
Proof.
  destruct (@read_file_truncates Py.lower None None None no_connect
              (Some (constant_client fifty_x [])) (constant_client fifty_x [])
              (lit "/notes.txt") 10 (map Byte.to_N fifty_x))
    as (_ & _ & H).
  - reflexivity.
  - vm_compute. reflexivity.
  - exact (H eq_refl eq_refl).
Defined.

Lemma search_files_filters_and_truncates_witness :
  (exists rs,
     search_files Py.lower None no_connect
       (Some (constant_client [] mixed_reply)) (lit "plan") (lit "docx") 2
     = Ok rs
     /\ map sr_file_path rs = [lit "/plan.docx"; lit "/memo.doc"]
     /\ len rs <= 2)
  /\ Forall (fun r => exists stem,
                sr_file_path r = stem ++ lit ".docx"
                \/ sr_file_path r = stem ++ lit ".doc")
       (firstn 2 (allowed_results [lit ".docx"; lit ".doc"] mixed_reply)).
Proof.
  destruct (@search_files_filters_and_truncates Py.lower None no_connect
              (Some (constant_client [] mixed_reply))
              (constant_client [] mixed_reply) (lit "plan") (lit "docx") 2
              eq_refl) as [H1 H2].
  destruct (H2 _ H1) as [Hlen Hdocx]. split.
  - eexists. split; [exact H1|]. split; [reflexivity|exact Hlen].
  - exact (Hdocx eq_refl).
Defined.


Lemma failing_path_is_skipped_witness :
  search_file_content Py.lower None None None no_connect
    (Some (flaky_client [lit "/gone.txt"] banana))
    ([lit "/a.txt"] ++ lit "/gone.txt" :: [lit "/dir/b.txt"]) (lit "NAN") 0
  = Some (Ok [ {| file_path := lit "/a.txt"; file_name := lit "a.txt";
                  matches := [nan_in_banana]; total_matches := 1 |};
               {| file_path := lit "/dir/b.txt"; file_name := lit "b.txt";
                  matches := [nan_in_banana]; total_matches := 1 |} ],
          [lit "Error searching in /gone.txt: Dropbox API error: path/not_found"]).
Proof.
  destruct (@failing_path_is_skipped Py.lower None None None no_connect
              (Some (flaky_client [lit "/gone.txt"] banana))
              (flaky_client [lit "/gone.txt"] banana) (lit "NAN") 0
              [lit "/a.txt"] [lit "/dir/b.txt"] (lit "/gone.txt")
              (Exn ValueError (lit "Dropbox API error: path/not_found"))
              eq_refl eq_refl)
    as (rs & log & Hrun & Hrs & Hlog & _).
  rewrite Hrun, Hrs, Hlog. reflexivity.
Defined.

(** ** Initialisation and the failures of the tools *)

Lemma initialize_outcome (token : option str) (connect : str -> result Client) :
  (forall e, initialize_dropbox_client token connect = Raise e ->
             exn_cls e = ValueError)
  /\ (forall c, initialize_dropbox_client token connect = Ok c
                <-> exists t, token = Some t /\ t <> [] /\ connect t = Ok c).
Proof.
  unfold initialize_dropbox_client. split.
  - intros e. destruct token as [[|a t]|]; try (intros [= <-]; reflexivity).
    destruct (connect (a :: t)) as [c|e']; [discriminate|].
    destruct (is_AuthError e'); intros [= <-]; reflexivity.
  - intros c. split.
    + destruct token as [[|a t]|]; try discriminate.
      destruct (connect (a :: t)) as [c'|e'] eqn:E.
      * intros [= <-]. exists (a :: t). repeat split; [discriminate|exact E].
      * destruct (is_AuthError e'); discriminate.
    + intros (t & -> & Ht & E). destruct t as [|a t]; [contradiction|].
      now rewrite E.
Qed.

Lemma ensure_client_raises (token : option str) (connect : str -> result Client)
    (g : option Client) (e : exn) :
  ensure_client token connect g = Raise e -> exn_cls e = ValueError.
Proof.
  destruct g as [c|]; simpl; [discriminate|].
  apply (proj1 (initialize_outcome token connect)).
Qed.

(** X1.  Initialisation fails only with a [ValueError]; it succeeds exactly
    when the token is present and not empty and the connection with it
    succeeds, and then the handle is the one connected; without a token
    nothing is asked of the remote service. *)
Theorem initialize_needs_token_and_connection
    (token : option str) (connect : str -> result Client) :
  (forall e, initialize_dropbox_client token connect = Raise e ->
             exn_cls e = ValueError)
  /\ (forall c, initialize_dropbox_client token connect = Ok c
                <-> exists t, token = Some t /\ t <> [] /\ connect t = Ok c)
  /\ (token = None \/ token = Some [] ->
      forall connect',
        initialize_dropbox_client token connect'
        = initialize_dropbox_client token connect).
Proof.
  destruct (initialize_outcome token connect) as [H1 H2].
  split; [exact H1|]. split; [exact H2|].
  intros [-> | ->] connect'; reflexivity.
Qed.

Lemma extract_pdf_returns (P : option PdfLib) (b : bytes) :
  exists s, extract_text_from_pdf P b = Ok s.
Proof.
  unfold extract_text_from_pdf, try_except, bind.
  destruct P as [lib|]; [|eexists; reflexivity].
  destruct (PdfReader lib b) as [pages|e]; [|eexists; reflexivity].
  destruct (join_lines pages []); eexists; reflexivity.
Qed.

Lemma extract_docx_returns (D : option DocxLib) (b : bytes) :
  exists s, extract_text_from_docx D b = Ok s.
Proof.
  unfold extract_text_from_docx, try_except, bind.
  destruct D as [lib|]; [|eexists; reflexivity].
  destruct (DocumentOf lib b) as [parts|e]; [|eexists; reflexivity].
  destruct (join_lines parts []); eexists; reflexivity.
Qed.

Section Content.

Variable str_lower : str -> str.
Variable PyPDF2 : option PdfLib.
Variable Document : option DocxLib.

Local Abbreviation content_of := (get_file_content str_lower PyPDF2 Document).

(** The extension [get_file_content] dispatches on. *)
Local Abbreviation ext_of path := (last_item (split (str_lower path) 46%N)).

(** What [get_file_content] does with the bytes of a download. *)
Lemma get_file_content_download (c : Client) (path : str) (b : bytes) :
  files_download c path = Ok b ->
  content_of (Some c) path
  = if str_eqb (ext_of path) (lit "pdf") then extract_text_from_pdf PyPDF2 b
    else if str_in (ext_of path) [lit "docx"; lit "doc"]
    then extract_text_from_docx Document b
    else if str_in (ext_of path)
              [lit "txt"; lit "md"; lit "py"; lit "js"; lit "html";
               lit "css"; lit "json"; lit "csv"]
    then Ok match decode_utf8 b with
            | Some s => s
            | None => map Byte.to_N b
            end
    else Ok (lit "[Unsupported file type: " ++ ext_of path ++ lit "]").
Proof.
  intros Hd. unfold get_file_content. rewrite Hd. cbn [bind].
  destruct (str_eqb (ext_of path) (lit "pdf")).
  - destruct (extract_pdf_returns PyPDF2 b) as [s ->]. reflexivity.
  - destruct (str_in (ext_of path) [lit "docx"; lit "doc"]).
    + destruct (extract_docx_returns Document b) as [s ->]. reflexivity.
    + destruct (str_in (ext_of path) _); [|reflexivity].
      unfold decode_latin1. destruct (decode_utf8 b); reflexivity.
Qed.

(** X2.  [get_file_content] raises nothing but [ValueError]: "not
    initialized" without a client, "Dropbox API error" for an [ApiError] of
    the download and "Error reading file" for any other failure of it; once
    the download has succeeded it always returns a string. *)
Theorem get_file_content_failures (g : option Client) (path : str) :
  (forall e, content_of g path = Raise e -> exn_cls e = ValueError)
  /\ (g = None ->
      content_of g path
      = Raise (Exn ValueError (lit "Dropbox client not initialized")))
  /\ (forall c e, g = Some c -> files_download c path = Raise e ->
        content_of g path
        = Raise (Exn ValueError
            ((if is_ApiError e then lit "Dropbox API error: "
              else lit "Error reading file: ") ++ exn_str e)))
  /\ (forall c b, g = Some c -> files_download c path = Ok b ->
        exists s, content_of g path = Ok s).
Proof.
  assert (Hfail : forall c e, g = Some c -> files_download c path = Raise e ->
            content_of g path
            = Raise (Exn ValueError
                ((if is_ApiError e then lit "Dropbox API error: "
                  else lit "Error reading file: ") ++ exn_str e))).
  { intros c e -> Hd. unfold get_file_content. rewrite Hd. cbn [bind try_except].
    destruct (is_ApiError e); reflexivity. }
  assert (Hok : forall c b, g = Some c -> files_download c path = Ok b ->
            exists s, content_of g path = Ok s).
  { intros c b -> Hd. rewrite (get_file_content_download _ _ Hd).
    destruct (str_eqb _ _); [apply extract_pdf_returns|].
    destruct (str_in _ _); [apply extract_docx_returns|].
    destruct (str_in _ _); eexists; reflexivity. }
  split; [|split; [now intros ->|split; assumption]].
  intros e He. destruct g as [c|]; [|now injection He as <-].
  destruct (files_download c path) as [b|e'] eqn:Hd.
  - destruct (Hok c b eq_refl Hd) as [s Hs]. congruence.
  - rewrite (Hfail c e' eq_refl Hd) in He. now injection He as <-.
Qed.

End Content.

(** ** Splitting a path *)

Lemma split_not_nil (s : str) (sep : char) : split s sep <> [].
Proof.
  destruct s as [|a s]; simpl; [discriminate|].
  destruct (N.eqb a sep); [discriminate|].
  destruct (split s sep); discriminate.
Qed.

(** A string without the separator is its own single piece. *)
Lemma split_no_sep (s : str) (sep : char) :
  ~ In sep s -> split s sep = [s].
Proof.
  induction s as [|a s IH]; intros H; simpl; [reflexivity|].
  destruct (N.eqb_spec a sep) as [->|_]; [exfalso; apply H; now left|].
  rewrite IH; [reflexivity|]. intros Hin. apply H. now right.
Qed.

(** Splitting distributes over a separator. *)
Lemma split_at_sep (s1 s2 : str) (sep : char) :
  split (s1 ++ sep :: s2) sep = split s1 sep ++ split s2 sep.
Proof.
  induction s1 as [|a s1 IH]; simpl.
  - now rewrite N.eqb_refl.
  - destruct (N.eqb a sep); rewrite IH; [reflexivity|].
    pose proof (split_not_nil s1 sep).
    destruct (split s1 sep); [contradiction|reflexivity].
Qed.

Lemma last_item_app (l1 l2 : list str) :
  l2 <> [] -> last_item (l1 ++ l2) = last_item l2.
Proof.
  unfold last_item. intros H. induction l1 as [|x l1 IH]; [reflexivity|].
  simpl. destruct (l1 ++ l2) eqn:E; [|exact IH].
  apply app_eq_nil in E. destruct E. contradiction.
Qed.

(** The last piece of a string that ends in a separator-free [tail]
    after a separator is that tail. *)
Lemma last_item_split_tail (stem tail : str) (sep : char) :
  ~ In sep tail -> last_item (split (stem ++ sep :: tail) sep) = tail.
Proof.
  intros H. rewrite split_at_sep, last_item_app by apply split_not_nil.
  now rewrite split_no_sep.
Qed.

(** Every string either has no separator or splits at its last one. *)
Lemma last_separator (s : str) (sep : char) :
  ~ In sep s
  \/ exists stem tail, s = stem ++ sep :: tail /\ ~ In sep tail.
Proof.
  induction s as [|a s IH]; [left; intros []|].
  destruct IH as [Hno|(stem & tail & -> & Ht)].
  - destruct (N.eq_dec a sep) as [->|Hne].
    + right. exists [], s. split; [reflexivity|exact Hno].
    + left. intros [H|H]; [now apply Hne|now apply Hno].
  - right. exists (a :: stem), tail. split; [reflexivity|exact Ht].
Qed.

(** X3.  The last piece of [path.split(sep)], which the module uses as file
    name (with "/") and as extension (with "."), is the part of the path
    after its last separator and holds no separator itself; for a path
    without separator it is the whole path. *)
Theorem last_piece_follows_last_separator (path : str) (sep : char) :
  ~ In sep (last_item (split path sep))
  /\ (exists stem,
        path = stem ++ last_item (split path sep)
        /\ (stem = [] \/ exists d, stem = d ++ [sep]))
  /\ (~ In sep path -> last_item (split path sep) = path).
Proof.
  destruct (last_separator path sep) as [Hno|(stem & tail & -> & Ht)].
  - rewrite split_no_sep by exact Hno. simpl.
    split; [exact Hno|]. split; [|reflexivity].
    exists []. split; [reflexivity|now left].
  - rewrite last_item_split_tail by exact Ht.
    split; [exact Ht|]. split.
    + exists (stem ++ [sep]). split; [now rewrite <- app_assoc|].
      right. now exists stem.
    + intros H. exfalso. apply H. apply in_or_app. right. now left.
Qed.

Section Dispatch.

Variable str_lower : str -> str.
Variable PyPDF2 : option PdfLib.
Variable Document : option DocxLib.

Local Abbreviation content_of := (get_file_content str_lower PyPDF2 Document).

(** X4.  A path without a dot has no extension to go by: the whole lowered
    path is taken for the extension, and unless it is itself one of the
    known extension names the file is reported as unsupported, with the
    lowered path in the placeholder, whatever its bytes. *)
Theorem file_without_dot_is_unsupported (c : Client) (path : str) (b : bytes) :
  files_download c path = Ok b ->
  ~ In 46%N (str_lower path) ->
  str_in (str_lower path)
    [lit "pdf"; lit "docx"; lit "doc"; lit "txt"; lit "md"; lit "py";
     lit "js"; lit "html"; lit "css"; lit "json"; lit "csv"] = false ->
  content_of (Some c) path
  = Ok (lit "[Unsupported file type: " ++ str_lower path ++ lit "]").
Proof.
  intros Hd Hdot Hknown.
  rewrite get_file_content_download with (b := b) by exact Hd.
  rewrite split_no_sep by exact Hdot. cbn [last_item last].
  unfold str_in in *. cbn [existsb] in *.
  repeat match type of Hknown with
         | (_ || _)%bool = false =>
             apply orb_false_iff in Hknown; destruct Hknown as [?H Hknown]
         end.
  repeat match goal with H : str_eqb _ _ = false |- _ => rewrite H; clear H end.
  reflexivity.
Qed.

(** A path that ends in one of the eleven extensions of the type "all"
    is handed to an extractor or decoded as text. *)
Lemma known_extension_is_read (c : Client) (path : str) (b : bytes) :
  existsb (endswith path)
    [lit ".pdf"; lit ".docx"; lit ".doc"; lit ".txt"; lit ".md"; lit ".py";
     lit ".js"; lit ".html"; lit ".css"; lit ".json"; lit ".csv"] = true ->
  str_lower path = path ->
  files_download c path = Ok b ->
  content_of (Some c) path = extract_text_from_pdf PyPDF2 b
  \/ content_of (Some c) path = extract_text_from_docx Document b
  \/ content_of (Some c) path
     = Ok match decode_utf8 b with
          | Some s => s
          | None => map Byte.to_N b
          end.
Proof.
  intros Hext Hlow Hd.
  rewrite get_file_content_download with (b := b) by exact Hd. rewrite Hlow.
  cbn [existsb] in Hext.
  repeat match type of Hext with
         | (_ || _)%bool = true =>
             apply orb_true_iff in Hext; destruct Hext as [Hext|Hext]
         end;
    try discriminate;
    apply endswith_iff in Hext; destruct Hext as [stem ->];
    match goal with
    | |- context [stem ++ lit ?e] =>
        let tail := eval vm_compute in (List.tl (lit e)) in
        let E := fresh "E" in
        assert (E : last_item (split (stem ++ lit e) 46%N) = tail)
          by (apply (@last_item_split_tail stem tail 46%N);
              vm_compute; intuition discriminate);
        rewrite E
    end;
    cbn; auto.
Qed.

(** X5.  Whatever [search_files] lets through for one of its named types
    ("all", "pdf", "docx", "txt", in any case) can be read: for a path that
    is its own lowered form and ends in an allowed extension,
    [get_file_content] hands the downloaded bytes to the PDF or the DOCX
    extractor or decodes them as text (UTF-8, else Latin-1), and never
    answers "unsupported". *)
Theorem allowed_file_is_supported (c : Client) (file_types path : str)
    (b : bytes) :
  str_in (str_lower file_types)
    [lit "all"; lit "pdf"; lit "docx"; lit "txt"] = true ->
  extension_matches (parse_file_types str_lower file_types) path = true ->
  str_lower path = path ->
  files_download c path = Ok b ->
  content_of (Some c) path = extract_text_from_pdf PyPDF2 b
  \/ content_of (Some c) path = extract_text_from_docx Document b
  \/ content_of (Some c) path
     = Ok match decode_utf8 b with
          | Some s => s
          | None => map Byte.to_N b
          end.
Proof.
  intros Hft Hext Hlow Hd.
  apply known_extension_is_read; [|exact Hlow|exact Hd].
  unfold str_in in Hft. cbn [existsb] in Hft.
  unfold extension_matches, parse_file_types in Hext.
  repeat match type of Hft with
         | (_ || _)%bool = true =>
             apply orb_true_iff in Hft; destruct Hft as [Hft|Hft]
         end;
    try discriminate;
    apply str_eqb_eq in Hft; rewrite Hft in Hext;
    vm_compute str_eqb in Hext; cbv iota in Hext;
    cbn [existsb] in *;
    repeat match type of Hext with
           | (_ || _)%bool = true =>
               apply orb_true_iff in Hext; destruct Hext as [Hext|Hext]
           end;
    try discriminate;
    rewrite Hext; rewrite ?orb_true_r; reflexivity.
Qed.

End Dispatch.

Lemma file_without_dot_is_unsupported_witness :
  get_file_content Py.lower None None
    (Some (constant_client banana [])) (lit "/README")
  = Ok (lit "[Unsupported file type: /readme]").
Proof.
  apply (@file_without_dot_is_unsupported Py.lower None None
           (constant_client banana []) (lit "/README") banana).
  - reflexivity.
  - vm_compute. intuition discriminate.
  - reflexivity.
Defined.

Lemma allowed_file_is_supported_witness :
  get_file_content Py.lower None None
    (Some (constant_client banana [])) (lit "/fruit/list.md")
  = extract_text_from_pdf None banana
  \/ get_file_content Py.lower None None
       (Some (constant_client banana [])) (lit "/fruit/list.md")
     = extract_text_from_docx None banana
  \/ get_file_content Py.lower None None
       (Some (constant_client banana [])) (lit "/fruit/list.md")
     = Ok match decode_utf8 banana with
          | Some s => s
          | None => map Byte.to_N banana
          end.
Proof.
  apply (@allowed_file_is_supported Py.lower None None
           (constant_client banana []) (lit "ALL") (lit "/fruit/list.md")
           banana); reflexivity.
Defined.

(** ** More on the extractors *)

(** The text gathered from parts that can all be read. *)
Lemma join_lines_read (ts : list str) (rest : list (result str)) (text : str) :
  join_lines (map Ok ts ++ rest) text
  = join_lines rest (text ++ concat (map (fun t => t ++ [LF]) ts)).
Proof.
  revert text. induction ts as [|t ts IH]; intros text; simpl.
  - now rewrite app_nil_r.
  - rewrite IH. now rewrite <- !app_assoc.
Qed.

(** X6.  The extractors read the pages (paragraphs) in order, each followed
    by a line feed; when all can be read the result is that text stripped,
    and as soon as one cannot, the text read so far is dropped and the
    result is the error placeholder of that failure, whatever follows. *)
Theorem first_unreadable_part_decides (lib : PdfLib) (dlib : DocxLib)
    (b : bytes) (ts : list str) :
  (PdfReader lib b = Ok (map Ok ts) ->
   extract_text_from_pdf (Some lib) b
   = Ok (strip (concat (map (fun t => t ++ [LF]) ts))))
  /\ (forall e rest,
        PdfReader lib b = Ok (map Ok ts ++ Raise e :: rest) ->
        extract_text_from_pdf (Some lib) b
        = Ok (lit "[Error extracting PDF text: " ++ exn_str e ++ lit "]"))
  /\ (DocumentOf dlib b = Ok (map Ok ts) ->
      extract_text_from_docx (Some dlib) b
      = Ok (strip (concat (map (fun t => t ++ [LF]) ts))))
  /\ (forall e rest,
        DocumentOf dlib b = Ok (map Ok ts ++ Raise e :: rest) ->
        extract_text_from_docx (Some dlib) b
        = Ok (lit "[Error extracting DOCX text: " ++ exn_str e ++ lit "]")).
Proof.
  unfold extract_text_from_pdf, extract_text_from_docx.
  split; [|split; [|split]].
  - intros ->. cbn [bind]. rewrite <- (app_nil_r (map Ok ts)), join_lines_read.
    reflexivity.
  - intros e rest ->. cbn [bind]. rewrite join_lines_read. reflexivity.
  - intros ->. cbn [bind]. rewrite <- (app_nil_r (map Ok ts)), join_lines_read.
    reflexivity.
  - intros e rest ->. cbn [bind]. rewrite join_lines_read. reflexivity.
Qed.

Lemma first_unreadable_part_decides_witness :
  extract_text_from_pdf (Some torn_pdf) banana
  = Ok (lit "[Error extracting PDF text: bad xref]")
  /\ extract_text_from_docx (Some sound_docx) banana
     = Ok (lit "one" ++ [LF] ++ lit "two").
Proof.
  destruct (@first_unreadable_part_decides torn_pdf sound_docx banana
              [lit "one"; lit "two"]) as (_ & H2 & H3 & _).
  split.
  - exact (H2 _ _ eq_refl).
  - exact (H3 eq_refl).
Defined.

Lemma lstrip_head (s : str) (a : char) (r : str) :
  lstrip s = a :: r -> isspace a = false.
Proof.
  induction s as [|x s IH]; simpl; [discriminate|].
  destruct (isspace x) eqn:E; [exact IH|]. now intros [= <- _].
Qed.

Lemma lstrip_suffix (s : str) : exists d, s = d ++ lstrip s.
Proof.
  induction s as [|x s [d IH]]; simpl; [now exists []|].
  destruct (isspace x); [|now exists []].
  exists (x :: d). simpl. now f_equal.
Qed.

Lemma strip_trimmed (s : str) : trimmed (strip s).
Proof.
  unfold strip. destruct (lstrip_suffix (rev (lstrip s))) as [d Hd].
  set (v := lstrip (rev (lstrip s))) in *. split.
  - intros a r Hr.
    assert (Hu : lstrip s = a :: r ++ rev d).
    { rewrite <- (rev_involutive (lstrip s)), Hd, rev_app_distr, Hr.
      reflexivity. }
    exact (lstrip_head _ Hu).
  - intros r z Hr.
    assert (Hv : v = z :: rev r).
    { rewrite <- (rev_involutive v), Hr, rev_app_distr. reflexivity. }
    exact (lstrip_head _ Hv).
Qed.

Lemma bracketed_trimmed (head msg : str) :
  trimmed ((91%N :: head) ++ msg ++ [93%N]).
Proof.
  split.
  - intros a r [= <- _]. reflexivity.
  - intros r z H. rewrite app_assoc in H.
    apply app_inj_tail in H. destruct H as [_ <-]. reflexivity.
Qed.

(** X7.  Whatever an extractor returns, the text itself or one of the
    placeholders, neither begins nor ends with white space. *)
Theorem extracted_text_is_trimmed (P : option PdfLib) (D : option DocxLib)
    (b : bytes) :
  (forall s, extract_text_from_pdf P b = Ok s -> trimmed s)
  /\ (forall s, extract_text_from_docx D b = Ok s -> trimmed s).
Proof.
  split; intros s.
  - unfold extract_text_from_pdf, try_except, bind.
    destruct P as [lib|].
    + destruct (PdfReader lib b) as [pages|e].
      * destruct (join_lines pages []) as [text|e]; intros [= <-].
        -- apply strip_trimmed.
        -- apply (bracketed_trimmed (lit "Error extracting PDF text: ")).
      * intros [= <-].
        apply (bracketed_trimmed (lit "Error extracting PDF text: ")).
    + intros [= <-].
      apply (bracketed_trimmed
               (lit "PDF text extraction not available - install PyPDF2") []).
  - unfold extract_text_from_docx, try_except, bind.
    destruct D as [lib|].
    + destruct (DocumentOf lib b) as [parts|e].
      * destruct (join_lines parts []) as [text|e]; intros [= <-].
        -- apply strip_trimmed.
        -- apply (bracketed_trimmed (lit "Error extracting DOCX text: ")).
      * intros [= <-].
        apply (bracketed_trimmed (lit "Error extracting DOCX text: ")).
    + intros [= <-].
      apply (bracketed_trimmed
               (lit "DOCX text extraction not available - install python-docx")
               []).
Qed.

(** ** More on the search *)

(** X8.  The search looks at the query only through its lowered form and
    its length: two queries with the same lowered form are found at the
    same offsets, and if they also have the same length ("Cat", "CAT") the
    records are the same, context and line number included. *)
Theorem search_ignores_query_case (str_lower : str -> str)
    (T Q Q' : str) (context_chars : Z) :
  str_lower Q = str_lower Q' ->
  option_map (map position) (search_content str_lower T Q context_chars)
  = option_map (map position) (search_content str_lower T Q' context_chars)
  /\ (len Q = len Q' ->
      search_content str_lower T Q context_chars
      = search_content str_lower T Q' context_chars).
Proof.
  intros Hq. rewrite !search_content_occurrences, Hq. unfold option_map.
  rewrite !map_position_match_at. split; [reflexivity|].
  intros Hlen. unfold match_at. now rewrite Hlen.
Qed.

Lemma search_ignores_query_case_witness :
  search_content Py.lower cat_sentence (lit "AT") 3
  = search_content Py.lower cat_sentence (lit "at") 3.
Proof.
  apply (@search_ignores_query_case Py.lower cat_sentence
           (lit "AT") (lit "at") 3); reflexivity.
Defined.

(** X9.  Every recorded position leaves room for the lowered query inside
    the lowered text: [0 <= P] and [P + len(query_lower) <=
    len(content_lower)].  So a query whose lowered form is longer than the
    lowered text, and any query with a non-empty lowered form in an empty
    lowered text, is not found at all. *)
Theorem match_fits_in_lowered_text (str_lower : str -> str)
    (T Q : str) (context_chars : Z) (ms : list ContentMatch) :
  search_content str_lower T Q context_chars = Some ms ->
  Forall (fun m => 0 <= position m
                   /\ position m + len (str_lower Q) <= len (str_lower T)) ms
  /\ (len (str_lower T) < len (str_lower Q) -> ms = []).
Proof.
  intros Hs.
  assert (H : Forall (fun m => 0 <= position m
                /\ position m + len (str_lower Q) <= len (str_lower T)) ms).
  { apply Forall_forall. intros m Hin.
    destruct (search_content_In _ _ _ _ _ Hs Hin) as (_ & Hocc & Hpos).
    split; [exact Hpos|]. apply occurrences_In in Hocc.
    destruct Hocc as (pre & post & E & Hp). rewrite E, !len_app, <- Hp.
    pose proof (len_nonneg post). lia. }
  split; [exact H|]. intros Hlong.
  destruct ms as [|m ms]; [reflexivity|].
  apply Forall_inv in H. lia.
Qed.

Lemma match_fits_in_lowered_text_witness :
  Forall (fun m => 0 <= position m
                   /\ position m + len (Py.lower (lit "at"))
                      <= len (Py.lower cat_sentence)) records_of_at.
Proof.
  apply (@match_fits_in_lowered_text Py.lower cat_sentence (lit "at") 3
           records_of_at).
  vm_compute. reflexivity.
Defined.

Lemma count_firstn_mono (s : str) (c : char) (n n' : nat) :
  (n <= n')%nat -> count (firstn n s) c <= count (firstn n' s) c.
Proof.
  revert n n'. induction s as [|a s IH]; intros n n' H.
  - rewrite !firstn_nil. lia.
  - destruct n as [|n]; simpl.
    + apply count_nonneg.
    + destruct n' as [|n']; [lia|]. simpl.
      specialize (IH n n'). lia.
Qed.

Lemma StronglySorted_map_lt_le (f : Z -> Z) (l : list Z) :
  (forall x y, In x l -> In y l -> x < y -> f x <= f y) ->
  StronglySorted Z.lt l -> StronglySorted Z.le (map f l).
Proof.
  intros Hf Hs. induction Hs as [|a l Hs IH Ha]; simpl; constructor.
  - apply IH. intros x y Hx Hy. apply Hf; now right.
  - apply Forall_map. rewrite Forall_forall in *. intros y Hy.
    apply Hf; [now left | now right | now apply Ha].
Qed.

(** X10.  The records come in ascending order of position, and their line
    numbers never decrease along the list. *)
Theorem records_are_ordered (str_lower : str -> str)
    (T Q : str) (context_chars : Z) (ms : list ContentMatch) :
  search_content str_lower T Q context_chars = Some ms ->
  StronglySorted Z.lt (map position ms)
  /\ StronglySorted Z.le (map line_number ms).
Proof.
  rewrite search_content_occurrences. intros [= <-].
  rewrite map_position_match_at. split; [apply occurrences_from_sorted|].
  rewrite map_map. cbn [match_at line_number].
  apply StronglySorted_map_lt_le; [|apply occurrences_from_sorted].
  intros x y Hx Hy Hxy.
  pose proof (occurrences_from_ge (str_lower T) (str_lower Q) 0) as G.
  rewrite Forall_forall in G.
  pose proof (G x Hx). pose proof (G y Hy).
  rewrite !slice_prefix by lia.
  pose proof (@count_firstn_mono T LF (Z.to_nat x) (Z.to_nat y)). lia.
Qed.

Lemma records_are_ordered_witness :
  StronglySorted Z.lt (map position records_of_at)
  /\ StronglySorted Z.le (map line_number records_of_at).
Proof.
  apply (@records_are_ordered Py.lower cat_sentence (lit "at") 3).
  vm_compute. reflexivity.
Defined.

(** X11.  With a radius [context_chars >= 0] a context is never longer than
    the query plus the radius on both sides, and it has exactly that length
    when the window lies inside the text. *)
Theorem context_length_is_bounded (str_lower : str -> str)
    (T Q : str) (context_chars : Z)
    (ms : list ContentMatch) (m : ContentMatch) :
  0 <= context_chars ->
  search_content str_lower T Q context_chars = Some ms ->
  In m ms ->
  len (context m) <= len Q + 2 * context_chars
  /\ len (context m) <= len T
  /\ (context_chars <= position m ->
      position m + len Q + context_chars <= len T ->
      len (context m) = len Q + 2 * context_chars).
Proof.
  intros Hc Hs Hin.
  destruct (search_content_In _ _ _ _ _ Hs Hin) as (Hm & _ & Hpos).
  pose proof (len_nonneg T). pose proof (len_nonneg Q).
  assert (E : len (context m)
              = Z.max 0 (Z.min (Z.min (len T)
                                  (position m + len Q + context_chars)) (len T)
                         - Z.min (Z.max 0 (position m - context_chars)) (len T))).
  { rewrite Hm at 1. unfold match_at. cbn [context].
    apply len_slice_inside; lia. }
  rewrite E. repeat split; lia.
Qed.

Lemma context_length_is_bounded_witness :
  len (context hit_in_sat) <= len (lit "at") + 2 * 3
  /\ len (context hit_in_sat) <= len cat_sentence
  /\ (3 <= position hit_in_sat ->
      position hit_in_sat + len (lit "at") + 3 <= len cat_sentence ->
      len (context hit_in_sat) = len (lit "at") + 2 * 3).
Proof.
  apply (@context_length_is_bounded Py.lower cat_sentence (lit "at") 3
           records_of_at hit_in_sat).
  - lia.
  - vm_compute. reflexivity.
  - simpl. auto.
Defined.

(** ** More on the tools *)

(** An entry contributed by a path is the entry of its non-empty search. *)
Lemma contribution_entry (got : result str) (str_lower : str -> str)
    (p q : str) (c : Z) (r : ContentSearchResult) :
  In r (fst (contribution got str_lower p q c)) ->
  exists content,
    got = Ok content
    /\ file_path r = p
    /\ search_content str_lower content q c = Some (matches r)
    /\ file_name r = last_item (split p 47%N).
Proof.
  unfold contribution. destruct got as [content|e]; [|intros []].
  destruct (map (match_at content q c)
              (occurrences (str_lower content) (str_lower q)))
    as [|m ms] eqn:Hm; [intros []|].
  intros [<-|[]]. exists content. simpl.
  split; [reflexivity|]. split; [reflexivity|]. split; [|reflexivity].
  now rewrite search_content_occurrences, Hm.
Qed.

Section Batch.

Variable str_lower : str -> str.
Variable PyPDF2 : option PdfLib.
Variable Document : option DocxLib.
Variable DROPBOX_ACCESS_TOKEN : option str.
Variable connect : str -> result Client.

Local Abbreviation ensure := (ensure_client DROPBOX_ACCESS_TOKEN connect).
Local Abbreviation content_of := (get_file_content str_lower PyPDF2 Document).
Local Abbreviation search_in :=
  (search_file_content str_lower PyPDF2 Document DROPBOX_ACCESS_TOKEN connect).
Local Abbreviation read :=
  (read_file str_lower PyPDF2 Document DROPBOX_ACCESS_TOKEN connect).
Local Abbreviation adds := (fun g q c path =>
  contribution (content_of g path) str_lower path q c).



(** The entries of a run and the content they were found in. *)
Lemma entry_content (g : option Client) (cl : Client)
    (paths : list str) (q : str) (c : Z)
    (rs : list ContentSearchResult) (log : list str)
    (r : ContentSearchResult) :
  ensure g = Ok cl ->
  search_in g paths q c = Some (Ok rs, log) ->
  In r rs ->
  exists content,
    content_of (Some cl) (file_path r) = Ok content
    /\ search_content str_lower content q c = Some (matches r)
    /\ file_name r = last_item (split (file_path r) 47%N).
Proof.
  intros Hg Hs Hin.
  rewrite search_file_content_contributions with (cl := cl) in Hs by exact Hg.
  injection Hs as <- _.
  apply in_flat_map in Hin. destruct Hin as (p & _ & Hin).
  apply contribution_entry in Hin.
  destruct Hin as (content & Hc & Hp & Hm & Hn). subst p.
  exists content. split; [exact Hc|]. split; [exact Hm|exact Hn].
Qed.

(** What [read_file] returns without a limit is the extracted content. *)
Lemma read_file_unlimited (g : option Client) (cl : Client)
    (path content : str) :
  ensure g = Ok cl ->
  read g path 0 = Ok content ->
  content_of (Some cl) path = Ok content.
Proof.
  intros Hg. unfold read_file. rewrite Hg. cbn [bind].
  destruct (content_of (Some cl) path) as [s|e]; cbn; [|discriminate].
  now intros [= ->].
Qed.

(** X13.  The records of [search_file_content] refer to the text that
    [read_file] returns for the same path without a limit: each context is
    the slice of that text around the recorded position, and each line
    number counts the line feeds of that text before the position. *)
Theorem matches_refer_to_read_file (g : option Client) (cl : Client)
    (paths : list str) (q : str) (c : Z)
    (rs : list ContentSearchResult) (log : list str)
    (r : ContentSearchResult) (m : ContentMatch) (content : str) :
  ensure g = Ok cl ->
  0 <= c ->
  search_in g paths q c = Some (Ok rs, log) ->
  In r rs -> In m (matches r) ->
  read g (file_path r) 0 = Ok content ->
  context m
  = slice content (Z.max 0 (position m - c)) (position m + len q + c)
  /\ line_number m = 1 + count (firstn (Z.to_nat (position m)) content) LF.
Proof.
  intros Hg Hc Hs Hr Hm Hread.
  destruct (@entry_content g cl paths q c rs log r Hg Hs Hr)
    as (content' & Hc' & Hs' & _).
  rewrite (@read_file_unlimited g cl (file_path r) content Hg Hread) in Hc'. injection Hc' as <-.
  destruct (search_content_In _ _ _ _ _ Hs' Hm) as (E & _ & Hpos).
  pose proof (len_nonneg q). split.
  - rewrite E at 1. unfold match_at. cbn [context].
    apply slice_clip_hi. lia.
  - rewrite E at 1. unfold match_at. cbn [line_number].
    rewrite slice_prefix by exact Hpos. lia.
Qed.

(** X14.  The file name of an entry is the part of its path after the last
    "/": the path ends with it, it holds no "/", and what precedes it is
    empty or ends in "/". *)
Theorem file_name_is_last_component (g : option Client) (cl : Client)
    (paths : list str) (q : str) (c : Z)
    (rs : list ContentSearchResult) (log : list str) :
  ensure g = Ok cl ->
  search_in g paths q c = Some (Ok rs, log) ->
  Forall (fun r =>
            ~ In 47%N (file_name r)
            /\ exists dir,
                 file_path r = dir ++ file_name r
                 /\ (dir = [] \/ exists d, dir = d ++ [47%N])) rs.
Proof.
  intros Hg Hs. apply Forall_forall. intros r Hr.
  destruct (@entry_content g cl paths q c rs log r Hg Hs Hr)
    as (_ & _ & _ & ->).
  destruct (last_separator (file_path r) 47%N) as [Hno|(stem & tail & E & Ht)].
  - rewrite split_no_sep by exact Hno. simpl. split; [exact Hno|].
    exists []. split; [reflexivity|now left].
  - rewrite E, last_item_split_tail by exact Ht. split; [exact Ht|].
    exists (stem ++ [47%N]). split; [now rewrite <- app_assoc|].
    right. now exists stem.
Qed.

End Batch.


Lemma matches_refer_to_read_file_witness :
  exists rs log r m content,
    search_file_content Py.lower None None None no_connect
      (Some (constant_client banana [])) [lit "/fruit/list.txt"] (lit "NAN") 1
    = Some (Ok rs, log)
    /\ In r rs /\ In m (matches r)
    /\ read_file Py.lower None None None no_connect
         (Some (constant_client banana [])) (file_path r) 0 = Ok content
    /\ context m
       = slice content (Z.max 0 (position m - 1))
           (position m + len (lit "NAN") + 1)
    /\ line_number m = 1 + count (firstn (Z.to_nat (position m)) content) LF.
Proof.
  do 5 eexists.
  split; [vm_compute; reflexivity|].
  split; [left; reflexivity|].
  split; [left; reflexivity|].
  split; [vm_compute; reflexivity|].
  eapply (@matches_refer_to_read_file Py.lower None None None no_connect
            (Some (constant_client banana [])) (constant_client banana [])
            [lit "/fruit/list.txt"] (lit "NAN") 1).
  - reflexivity.
  - lia.
  - vm_compute. reflexivity.
  - left. reflexivity.
  - left. reflexivity.
  - vm_compute. reflexivity.
Defined.

Lemma file_name_is_last_component_witness :
  exists rs log,
    search_file_content Py.lower None None None no_connect
      (Some (constant_client banana [])) [lit "/fruit/list.txt"] (lit "ana") 1
    = Some (Ok rs, log)
    /\ map file_name rs = [lit "list.txt"]
    /\ Forall (fun r =>
                 ~ In 47%N (file_name r)
                 /\ exists dir,
                      file_path r = dir ++ file_name r
                      /\ (dir = [] \/ exists d, dir = d ++ [47%N])) rs.
Proof.
  do 2 eexists. split; [vm_compute; reflexivity|].
  split; [reflexivity|].
  apply (@file_name_is_last_component Py.lower None None None no_connect
           (Some (constant_client banana [])) (constant_client banana [])
           [lit "/fruit/list.txt"] (lit "ana") 1 _ []).
  - reflexivity.
  - vm_compute. reflexivity.
Defined.

(** ** The listing tools *)

Lemma listed_paths (pv : FileMetadata -> option str) (entries : list Entry) :
  map fi_path (flat_map (listed pv) entries) = flat_map shown_path entries.
Proof.
  induction entries as [|e rest IH]; [reflexivity|].
  cbn [flat_map]. rewrite map_app, IH. now destruct e.
Qed.

Lemma listed_length (pv : FileMetadata -> option str) (entries : list Entry) :
  (List.length (flat_map (listed pv) entries) <= List.length entries)%nat.
Proof.
  induction entries as [|e rest IH]; [simpl; lia|].
  cbn [flat_map]. rewrite length_app. destruct e; simpl in *; lia.
Qed.

Section ListingFacts.

Variable str_lower : str -> str.
Variable PyPDF2 : option PdfLib.
Variable Document : option DocxLib.
Variable DROPBOX_ACCESS_TOKEN : option str.
Variable connect : str -> result Client.
Variable files_list_folder : Client -> str -> Z -> result (list Entry).
Variable files_get_metadata : Client -> str -> result Entry.

Local Abbreviation ensure := (ensure_client DROPBOX_ACCESS_TOKEN connect).
Local Abbreviation preview := (preview_of str_lower PyPDF2 Document).
Local Abbreviation entries_of := (list_entries str_lower PyPDF2 Document).
Local Abbreviation listing :=
  (list_files str_lower PyPDF2 Document DROPBOX_ACCESS_TOKEN connect
     files_list_folder).
Local Abbreviation info :=
  (get_file_info DROPBOX_ACCESS_TOKEN connect files_get_metadata).

Lemma list_entries_listed (c : Client) (entries : list Entry) :
  forall files,
    entries_of c entries files
    = files ++ flat_map (listed (preview c)) entries.
Proof.
  induction entries as [|e rest IH]; intros files; simpl.
  - now rewrite app_nil_r.
  - destruct e; rewrite IH; simpl; now rewrite <- ?app_assoc.
Qed.

Lemma list_files_listed (g : option Client) (cl : Client)
    (folder : str) (max_files : Z) (entries : list Entry) :
  ensure g = Ok cl ->
  files_list_folder cl (normalize_folder_path folder) max_files = Ok entries ->
  listing g folder max_files = Ok (flat_map (listed (preview cl)) entries).
Proof.
  intros Hg Hl. unfold list_files. rewrite Hg. cbn [bind]. rewrite Hl.
  cbn [bind try_except]. now rewrite list_entries_listed.
Qed.

(** X15.  A listing cannot fail because of a preview: once the remote
    listing has succeeded, [list_files] returns, whatever the downloads and
    the extractors do, one line for each file and each folder of the
    remote listing, in its order (other entries are left out). *)
Theorem listing_survives_previews (g : option Client) (cl : Client)
    (folder : str) (max_files : Z) (entries : list Entry) :
  ensure g = Ok cl ->
  files_list_folder cl (normalize_folder_path folder) max_files = Ok entries ->
  exists files,
    listing g folder max_files = Ok files
    /\ map fi_path files = flat_map shown_path entries
    /\ (List.length files <= List.length entries)%nat.
Proof.
  intros Hg Hl. eexists.
  split; [exact (@list_files_listed g cl folder max_files entries Hg Hl)|].
  split; [apply listed_paths|apply listed_length].
Qed.

(** X16.  In a listing every folder has size 0, an empty modification time
    and no preview, and every other line is a file of the remote listing
    with its own name, path, size and modification time. *)
Theorem listing_lines (g : option Client) (cl : Client)
    (folder : str) (max_files : Z) (entries : list Entry)
    (files : list FileInfo) :
  ensure g = Ok cl ->
  files_list_folder cl (normalize_folder_path folder) max_files = Ok entries ->
  listing g folder max_files = Ok files ->
  Forall (fun f =>
            if is_folder f
            then fi_size f = 0 /\ fi_modified f = [] /\ content_preview f = None
                 /\ In (FolderEntry (fi_name f) (fi_path f)) entries
            else exists md,
                   In (FileEntry md) entries
                   /\ fi_name f = name md /\ fi_path f = path_lower md
                   /\ fi_size f = size md
                   /\ fi_modified f = server_modified_iso md) files.
Proof.
  intros Hg Hl Hf.
  rewrite (@list_files_listed g cl folder max_files entries Hg Hl) in Hf.
  injection Hf as <-. apply Forall_flat_map. apply Forall_forall.
  intros e He. destruct e as [md|n p|n p]; simpl; repeat constructor.
  - exists md. repeat split. exact He.
  - exact He.
Qed.

Lemma preview_short (cl : Client) (md : FileMetadata) (p : str) :
  preview cl md = Some p ->
  len p <= 203 /\ has_preview_suffix (str_lower (name md)) = true.
Proof.
  unfold preview_of.
  generalize (get_file_content str_lower PyPDF2 Document (Some cl)
                (path_lower md)) as got.
  intros got.
  destruct (has_preview_suffix (str_lower (name md))); [|discriminate].
  intros [= <-]. split; [|reflexivity].
  destruct got as [content|e]; [|unfold len; simpl; lia].
  destruct (Z.gtb_spec (len content) 200) as [Hlong|Hshort]; [|lia].
  rewrite len_app, len_slice_inside by lia.
  change (len (lit "...")) with 3. lia.
Qed.

(** X17.  A preview never has more than 203 characters (200 of the content
    and the dots), and only a file whose lowered name ends in ".txt",
    ".md", ".py" or ".js" has one. *)
Theorem previews_are_short (g : option Client) (cl : Client)
    (folder : str) (max_files : Z) (entries : list Entry)
    (files : list FileInfo) :
  ensure g = Ok cl ->
  files_list_folder cl (normalize_folder_path folder) max_files = Ok entries ->
  listing g folder max_files = Ok files ->
  Forall (fun f =>
            forall p, content_preview f = Some p ->
                      len p <= 203
                      /\ is_folder f = false
                      /\ has_preview_suffix (str_lower (fi_name f)) = true)
    files.
Proof.
  intros Hg Hl Hf.
  rewrite (@list_files_listed g cl folder max_files entries Hg Hl) in Hf.
  injection Hf as <-. apply Forall_flat_map. apply Forall_forall.
  intros e _. destruct e as [md|n p|n p]; cbn [listed].
  - constructor; [|constructor]. cbn [file_info_of content_preview is_folder fi_name].
    intros pv Hp. destruct (@preview_short cl md pv Hp) as [H1 H2].
    split; [exact H1|]. split; [reflexivity|exact H2].
  - constructor; [|constructor]. intros pv Hp. discriminate Hp.
  - constructor.
Qed.

(** X18.  The folder path is sent to the remote either empty or with a
    leading "/"; putting the slash oneself changes nothing: the listing of
    a path and of its normal form are the same, and normalising twice is
    normalising once. *)
Theorem leading_slash_is_optional (g : option Client)
    (folder : str) (max_files : Z) :
  (normalize_folder_path folder = []
   \/ exists rest, normalize_folder_path folder = 47%N :: rest)
  /\ (normalize_folder_path folder = [] <-> folder = [])
  /\ normalize_folder_path (normalize_folder_path folder)
     = normalize_folder_path folder
  /\ listing g (normalize_folder_path folder) max_files
     = listing g folder max_files.
Proof.
  assert (Hn : normalize_folder_path (normalize_folder_path folder)
               = normalize_folder_path folder).
  { destruct folder as [|a folder]; [reflexivity|].
    unfold normalize_folder_path.
    destruct (startswith (a :: folder) (lit "/")) eqn:E.
    - now rewrite E.
    - reflexivity. }
  split; [|split; [|split; [exact Hn|]]].
  - destruct folder as [|a folder]; [now left|]. right.
    unfold normalize_folder_path.
    destruct (startswith (a :: folder) (lit "/")) eqn:E.
    + apply startswith_iff in E. destruct E as [rest E]. now exists rest.
    + now exists (a :: folder).
  - destruct folder as [|a folder]; [tauto|]. unfold normalize_folder_path.
    destruct (startswith (a :: folder) (lit "/")); split; discriminate.
  - unfold list_files. now rewrite Hn.
Qed.

(** X19.  [get_file_info] shows a file or a folder as a listing shows it,
    without the preview; a deleted entry, which a listing leaves out, it
    shows as a folder of size 0. *)
Theorem file_info_agrees_with_listing (g : option Client) (cl : Client)
    (path : str) (entry : Entry) :
  ensure g = Ok cl ->
  files_get_metadata cl path = Ok entry ->
  match entry with
  | DeletedEntry n p =>
      info g path = Ok (folder_info_of n p) /\ entries_of cl [entry] [] = []
  | _ =>
      exists f,
        entries_of cl [entry] [] = [f]
        /\ info g path = Ok (without_preview f)
  end.
Proof.
  intros Hg Hm. unfold get_file_info. rewrite Hg. cbn [bind]. rewrite Hm.
  destruct entry as [md|n p|n p]; cbn.
  - eexists. split; reflexivity.
  - eexists. split; reflexivity.
  - split; reflexivity.
Qed.

(** X20.  Every failure of a tool reaches the caller as a [ValueError]:
    of [read_file], [search_files], [list_files] and [get_file_info], and
    of [search_file_content], which can only fail before it has looked at
    any path and so with an empty log. *)
Theorem tools_raise_only_ValueError (g : option Client) (e : exn) :
  (forall path max_length,
     read_file str_lower PyPDF2 Document DROPBOX_ACCESS_TOKEN connect
       g path max_length = Raise e -> exn_cls e = ValueError)
  /\ (forall query file_types max_results,
        search_files str_lower DROPBOX_ACCESS_TOKEN connect
          g query file_types max_results = Raise e -> exn_cls e = ValueError)
  /\ (forall folder max_files,
        listing g folder max_files = Raise e -> exn_cls e = ValueError)
  /\ (forall path, info g path = Raise e -> exn_cls e = ValueError)
  /\ (forall paths q c log,
        search_file_content str_lower PyPDF2 Document DROPBOX_ACCESS_TOKEN
          connect g paths q c = Some (Raise e, log) ->
        exn_cls e = ValueError /\ log = []).
Proof.
  pose proof (@ensure_client_raises DROPBOX_ACCESS_TOKEN connect g) as He.
  split; [|split; [|split; [|split]]].
  - intros path max_length. unfold read_file.
    destruct (ensure g) as [cl|e0]; cbn [bind]; [|intros [= ->]; now apply He].
    destruct (get_file_content _ _ _ _ _) as [content|e1]; cbn.
    + destruct (_ && _)%bool; discriminate.
    + now intros [= <-].
  - intros query file_types max_results. unfold search_files.
    destruct (ensure g) as [cl|e0]; cbn [bind]; [|intros [= ->]; now apply He].
    destruct (files_search_v2 cl query (max_results * 2)); cbn;
      [discriminate|now intros [= <-]].
  - intros folder max_files. unfold list_files.
    destruct (ensure g) as [cl|e0]; cbn [bind]; [|intros [= ->]; now apply He].
    destruct (files_list_folder cl _ max_files); cbn;
      [discriminate|now intros [= <-]].
  - intros path. unfold get_file_info.
    destruct (ensure g) as [cl|e0]; cbn [bind]; [|intros [= ->]; now apply He].
    destruct (files_get_metadata cl path) as [[md|n p|n p]|e1]; cbn;
      try discriminate. now intros [= <-].
  - intros paths q c log. unfold search_file_content.
    destruct (ensure g) as [cl|e0].
    + destruct (search_paths _ _ _ _ _ _ _ _); discriminate.
    + intros [= -> <-]. split; [now apply He|reflexivity].
Qed.

End ListingFacts.

Lemma listing_survives_previews_witness :
  exists files,
    list_files Py.lower None None None no_connect sample_list_folder
      (Some (flaky_client [lit "/notes.txt"] banana)) (lit "home") 20
    = Ok files
    /\ map fi_path files = [lit "/notes.txt"; lit "/docs"; lit "/report.pdf"]
    /\ (List.length files <= 4)%nat.
Proof.
  apply (@listing_survives_previews Py.lower None None None no_connect
           sample_list_folder
           (Some (flaky_client [lit "/notes.txt"] banana))
           (flaky_client [lit "/notes.txt"] banana)
           (lit "home") 20 sample_folder); reflexivity.
Defined.

Lemma listing_lines_witness :
  exists files,
    list_files Py.lower None None None no_connect sample_list_folder
      (Some (constant_client banana [])) [] 20 = Ok files
    /\ map is_folder files = [false; true; false]
    /\ Forall (fun f =>
                 if is_folder f
                 then fi_size f = 0 /\ fi_modified f = []
                      /\ content_preview f = None
                      /\ In (FolderEntry (fi_name f) (fi_path f)) sample_folder
                 else exists md,
                        In (FileEntry md) sample_folder
                        /\ fi_name f = name md /\ fi_path f = path_lower md
                        /\ fi_size f = size md
                        /\ fi_modified f = server_modified_iso md) files.
Proof.
  eexists. split; [vm_compute; reflexivity|]. split; [reflexivity|].
  apply (@listing_lines Py.lower None None None no_connect sample_list_folder
           (Some (constant_client banana [])) (constant_client banana [])
           [] 20 sample_folder).
  - reflexivity.
  - reflexivity.
  - vm_compute. reflexivity.
Defined.

Lemma previews_are_short_witness :
  exists files,
    list_files Py.lower None None None no_connect sample_list_folder
      (Some (constant_client banana [])) [] 20 = Ok files
    /\ map content_preview files = [Some (lit "banana"); None; None]
    /\ Forall (fun f =>
                 forall p, content_preview f = Some p ->
                           len p <= 203
                           /\ is_folder f = false
                           /\ has_preview_suffix (Py.lower (fi_name f)) = true)
         files.
Proof.
  eexists. split; [vm_compute; reflexivity|]. split; [reflexivity|].
  apply (@previews_are_short Py.lower None None None no_connect
           sample_list_folder
           (Some (constant_client banana [])) (constant_client banana [])
           [] 20 sample_folder).
  - reflexivity.
  - reflexivity.
  - vm_compute. reflexivity.
Defined.

Lemma file_info_agrees_with_listing_witness :
  exists f,
    list_entries Py.lower None None (constant_client banana [])
      [FolderEntry (lit "docs") (lit "/docs")] [] = [f]
    /\ get_file_info None no_connect sample_get_metadata
         (Some (constant_client banana [])) (lit "/docs")
       = Ok (without_preview f).
Proof.
  exact (@file_info_agrees_with_listing Py.lower None None None no_connect
           sample_get_metadata
           (Some (constant_client banana [])) (constant_client banana [])
           (lit "/docs") (FolderEntry (lit "docs") (lit "/docs"))
           eq_refl eq_refl).
Defined.

Section Failures.

Variable str_lower : str -> str.
Variable PyPDF2 : option PdfLib.
Variable Document : option DocxLib.
Variable DROPBOX_ACCESS_TOKEN : option str.
Variable connect : str -> result Client.

Local Abbreviation ensure := (ensure_client DROPBOX_ACCESS_TOKEN connect).

(** X21.  One failed download, three treatments.  [get_file_content] turns
    it into a [ValueError] that names the kind of failure; [read_file]
    raises it again with the path in front; [search_file_content] logs it
    with the path, returns no entry and does not fail; a listing shows the
    placeholder in place of the preview. *)
Theorem failed_download_is_reported (g : option Client) (cl : Client)
    (path : str) (e : exn) :
  ensure g = Ok cl ->
  files_download cl path = Raise e ->
  let why :=
    (if is_ApiError e then lit "Dropbox API error: "
     else lit "Error reading file: ") ++ exn_str e in
  (forall max_length,
     read_file str_lower PyPDF2 Document DROPBOX_ACCESS_TOKEN connect
       g path max_length
     = Raise (Exn ValueError
         (lit "Failed to read file " ++ path ++ lit ": " ++ why)))
  /\ (forall q c,
        search_file_content str_lower PyPDF2 Document DROPBOX_ACCESS_TOKEN
          connect g [path] q c
        = Some (Ok [], [lit "Error searching in " ++ path ++ lit ": " ++ why]))
  /\ (forall md,
        path_lower md = path ->
        has_preview_suffix (str_lower (name md)) = true ->
        preview_of str_lower PyPDF2 Document cl md
        = Some (lit "[Could not load preview]")).
Proof.
  intros Hg Hd why.
  assert (Hc : get_file_content str_lower PyPDF2 Document (Some cl) path
               = Raise (Exn ValueError why)).
  { unfold get_file_content. rewrite Hd. cbn [bind try_except]. subst why.
    destruct (is_ApiError e); reflexivity. }
  split; [|split].
  - intros max_length. unfold read_file. rewrite Hg. cbn [bind]. rewrite Hc.
    reflexivity.
  - intros q c. unfold search_file_content. rewrite Hg.
    cbn [search_paths]. unfold search_path. rewrite Hc. reflexivity.
  - intros md Hp Hs. unfold preview_of. rewrite Hs, Hp, Hc. reflexivity.
Qed.

End Failures.

Lemma failed_download_is_reported_witness :
  read_file Py.lower None None None no_connect
    (Some (flaky_client [lit "/gone.txt"] banana)) (lit "/gone.txt") 5000
  = Raise (Exn ValueError
      (lit "Failed to read file /gone.txt: Dropbox API error: path/not_found"))
  /\ search_file_content Py.lower None None None no_connect
       (Some (flaky_client [lit "/gone.txt"] banana))
       [lit "/gone.txt"] (lit "a") 100
     = Some (Ok [],
             [lit "Error searching in /gone.txt: Dropbox API error: path/not_found"]).
Proof.
  destruct (@failed_download_is_reported Py.lower None None None no_connect
              (Some (flaky_client [lit "/gone.txt"] banana))
              (flaky_client [lit "/gone.txt"] banana) (lit "/gone.txt")
              (Exn ApiError (lit "path/not_found")) eq_refl eq_refl)
    as (H1 & H2 & _).
  split; [exact (H1 5000)|exact (H2 (lit "a") 100)].
Defined.
